(** * Decentro KYC voice bot: a shallow embedding of [kyc_voice_bot.py]

    The development follows the live (online-recognition) class
    [KYCVoiceBot] of the source file.  The commented-out offline variant
    at the bottom of the source is not code and is not modelled.

    Modelling choices.
    - Recognised text is a [string] of 7-bit ASCII characters; on those the
      character classes below are the ones Python uses ([str.strip]
      white space, [\d], [[a-zA-Z]], [str.upper], [str.lower]). Where a
      property would not carry over to text outside ASCII it is stated
      of texts with [isascii].
    - A file system maps a file name to the record a reader finds in the
      file; a file that is missing, empty or partly written holds none.
    - The microphone/recogniser is a queue of pending recognition results
      ([None] for a timeout, unintelligible audio or a request error); an
      exhausted queue is silence, i.e. a timeout.
    - Speaking, listening, dictionary assignments and file writes are
      recorded in an event trace (most recent event first), threaded
      through a small state monad together with the object's fields.
    - Console printing and [time.sleep] have no effect on the state that
      the properties below talk about and are left out. *)

From Stdlib Require Import Bool Arith List Lia.
From Stdlib Require Import Strings.Ascii Strings.String.
From Stdlib Require Import Numbers.DecimalString.
Import ListNotations.

Open Scope string_scope.
Open Scope list_scope.

(* ================================================================= *)
(** ** Python string primitives used by the bot *)

Module PyStr.

(** Characters removed by [str.strip()] with no argument: TAB, LF, VT, FF,
    CR, the four separators FS/GS/RS/US and the space. *)
Definition is_space (c : ascii) : bool :=
  let n := nat_of_ascii c in
  (((9 <=? n) && (n <=? 13)) || ((28 <=? n) && (n <=? 31)) || (n =? 32))%nat.

(** [\d] on ASCII text. *)
Definition is_digit (c : ascii) : bool :=
  (("0" <=? c) && (c <=? "9"))%char.

Definition is_upper (c : ascii) : bool :=
  (("A" <=? c) && (c <=? "Z"))%char.

Definition is_lower (c : ascii) : bool :=
  (("a" <=? c) && (c <=? "z"))%char.

(** [[a-zA-Z]] *)
Definition is_alpha (c : ascii) : bool := is_lower c || is_upper c.

Definition to_upper (c : ascii) : ascii :=
  if is_lower c then ascii_of_nat (nat_of_ascii c - 32) else c.

Definition to_lower (c : ascii) : ascii :=
  if is_upper c then ascii_of_nat (nat_of_ascii c + 32) else c.

Fixpoint map (f : ascii -> ascii) (s : string) : string :=
  match s with
  | EmptyString => EmptyString
  | String c r => String (f c) (map f r)
  end.

Fixpoint filter (p : ascii -> bool) (s : string) : string :=
  match s with
  | EmptyString => EmptyString
  | String c r => if p c then String c (filter p r) else filter p r
  end.

Fixpoint forallb (p : ascii -> bool) (s : string) : bool :=
  match s with
  | EmptyString => true
  | String c r => p c && forallb p r
  end.

Fixpoint existsb (p : ascii -> bool) (s : string) : bool :=
  match s with
  | EmptyString => false
  | String c r => p c || existsb p r
  end.

(** [s.isascii()]: every character is below 128. *)
Definition isascii (s : string) : bool :=
  forallb (fun c => (nat_of_ascii c <? 128)%nat) s.

(** [s.upper()], [s.lower()] on ASCII text. A character outside ASCII is
    left as it is here, whereas Python changes the cased letters among
    them (and may change the length of the text); a statement that
    depends on the difference is made of texts with [isascii]. *)
Definition upper (s : string) : string := map to_upper s.
Definition lower (s : string) : string := map to_lower s.

(** [s.lstrip()], [s.rstrip()], [s.strip()] *)
Fixpoint lstrip (s : string) : string :=
  match s with
  | EmptyString => EmptyString
  | String c r => if is_space c then lstrip r else s
  end.

Fixpoint rstrip (s : string) : string :=
  match s with
  | EmptyString => EmptyString
  | String c r =>
      match rstrip r with
      | EmptyString => if is_space c then EmptyString else String c EmptyString
      | r' => String c r'
      end
  end.

Definition strip (s : string) : string := rstrip (lstrip s).

(** [s.replace(" ", "")] *)
Definition remove_spaces (s : string) : string :=
  filter (fun c => negb (Ascii.eqb c " ")) s.

(** [re.sub(r'[^\d]', '', s)] *)
Definition re_sub_non_digits (s : string) : string := filter is_digit s.

(** [s.isdigit()]: every character is a digit and there is at least one. *)
Definition isdigit (s : string) : bool :=
  negb (s =? EmptyString) && forallb is_digit s.

(** [bool(re.search(r'[a-zA-Z]', s))] *)
Definition re_search_alpha (s : string) : bool := existsb is_alpha s.

(** [needle in hay] *)
Fixpoint contains (needle hay : string) : bool :=
  prefix needle hay ||
  match hay with
  | EmptyString => false
  | String _ r => contains needle r
  end.

(** Matching [n] characters of a class at the head of [s]: the rest of the
    text when they are there. *)
Fixpoint match_class (p : ascii -> bool) (n : nat) (s : string) : option string :=
  match n with
  | O => Some s
  | S n' =>
      match s with
      | String c r => if p c then match_class p n' r else None
      | EmptyString => None
      end
  end.

(** [$] without [re.MULTILINE]: the end of the text, or just before a
    line feed that ends the text. *)
Definition at_dollar (s : string) : bool :=
  (s =? EmptyString) || (s =? String (ascii_of_nat 10) EmptyString).

(** [bool(re.match(r'^[A-Z]{5}[0-9]{4}[A-Z]$', s))] *)
Definition re_match_pan (s : string) : bool :=
  match match_class is_upper 5 s with
  | Some r1 =>
      match match_class is_digit 4 r1 with
      | Some r2 =>
          match match_class is_upper 1 r2 with
          | Some r3 => at_dollar r3
          | None => false
          end
      | None => false
      end
  | None => false
  end.

(** [s[:n]] *)
Definition slice_to (n : nat) (s : string) : string := substring 0 n s.

(** Python truthiness of a text. *)
Definition truthy (s : string) : bool := negb (s =? EmptyString).

End PyStr.

(* ================================================================= *)
(** ** [datetime.now().isoformat()] *)

Module DateTime.

Record t : Type := mk
  { year : nat; month : nat; day : nat;
    hour : nat; minute : nat; second : nat; microsecond : nat }.

Fixpoint zeros (n : nat) : string :=
  match n with
  | O => EmptyString
  | S k => String "0" (zeros k)
  end.

(** [%0wd] *)
Definition pad (w n : nat) : string :=
  let d := NilZero.string_of_uint (Nat.to_uint n) in
  zeros (w - String.length d) ++ d.

Definition isoformat (d : t) : string :=
  pad 4 (year d) ++ "-" ++ pad 2 (month d) ++ "-" ++ pad 2 (day d) ++ "T" ++
  pad 2 (hour d) ++ ":" ++ pad 2 (minute d) ++ ":" ++ pad 2 (second d) ++
  (if (microsecond d =? 0)%nat then EmptyString else "." ++ pad 6 (microsecond d)).

End DateTime.

(* ================================================================= *)
(** ** The bot: state, effects and the methods of [KYCVoiceBot] *)

Module KYCVoiceBot.

Import PyStr.

(** [self.kyc_data]: a dictionary with five fixed keys. *)
Record KycData : Type := mkKyc
  { name : string; phone : string; pan : string;
    consent : bool; timestamp : string }.

Inductive Key : Type := K_name | K_phone | K_pan | K_consent | K_timestamp.

Inductive Value : Type :=
  | VText (s : string)
  | VBool (b : bool).

(** [d[k] = v] for the key/value kinds the source assigns; the remaining
    combinations do not occur in the source and leave [d] as it is. *)
Definition set_item (k : Key) (v : Value) (d : KycData) : KycData :=
  match k, v with
  | K_name, VText s => mkKyc s (phone d) (pan d) (consent d) (timestamp d)
  | K_phone, VText s => mkKyc (name d) s (pan d) (consent d) (timestamp d)
  | K_pan, VText s => mkKyc (name d) (phone d) s (consent d) (timestamp d)
  | K_consent, VBool b => mkKyc (name d) (phone d) (pan d) b (timestamp d)
  | K_timestamp, VText s => mkKyc (name d) (phone d) (pan d) (consent d) s
  | _, _ => d
  end.

(** What the bot does to the outside world and to its record. *)
Inductive Event : Type :=
  | Spoke (text : string)
  | Listened (result : option string)
  | Assigned (key : Key) (after : KycData)
  | Dumped (filename : string) (data : KycData) (ok : bool).

(** What the disk does to a write: it goes through; the file cannot be
    opened, so nothing happens to it; or the file is opened, which empties
    it, and writing the record into it then fails. *)
Inductive Disk : Type := Writable | Unopenable | Unwritable.

(** The object's fields together with its environment. *)
Record World : Type := mkWorld
  { kyc_data : KycData;
    max_retries : nat;
    pending : list (option string);      (* recogniser results to come *)
    clock : DateTime.t;                  (* what [datetime.now()] reads *)
    disk : Disk;                         (* what a write runs into *)
    fs : list (string * KycData);        (* the record each file holds *)
    trace : list Event }.                (* most recent event first *)

Definition log (e : Event) (w : World) : World :=
  mkWorld (kyc_data w) (max_retries w) (pending w) (clock w) (disk w)
          (fs w) (e :: trace w).

Definition with_pending (p : list (option string)) (w : World) : World :=
  mkWorld (kyc_data w) (max_retries w) p (clock w) (disk w) (fs w) (trace w).

Definition with_kyc_data (d : KycData) (w : World) : World :=
  mkWorld d (max_retries w) (pending w) (clock w) (disk w) (fs w) (trace w).

Definition with_fs (f : list (string * KycData)) (w : World) : World :=
  mkWorld (kyc_data w) (max_retries w) (pending w) (clock w) (disk w) f (trace w).

(** *** The state monad *)

Definition M (A : Type) : Type := World -> A * World.

Definition ret {A} (a : A) : M A := fun w => (a, w).

Definition bind {A B} (m : M A) (k : A -> M B) : M B :=
  fun w => let (a, w') := m w in k a w'.

Notation "x <- m ;; k" := (bind m (fun x => k))
  (at level 61, m at next level, right associativity).
Notation "m ;; k" := (bind m (fun _ => k))
  (at level 61, right associativity).

Definition get_max_retries : M nat := fun w => (max_retries w, w).
Definition get_kyc_data : M KycData := fun w => (kyc_data w, w).
Definition datetime_now : M DateTime.t := fun w => (clock w, w).

(** [self.kyc_data[k] = v] *)
Definition assign (k : Key) (v : Value) : M unit :=
  fun w =>
    let d := set_item k v (kyc_data w) in
    (tt, log (Assigned k d) (with_kyc_data d w)).

(** [__init__]: an empty record and two retries. *)
Definition empty_record : KycData :=
  mkKyc EmptyString EmptyString EmptyString false EmptyString.

(** The bot after [__init__] in its environment; [ok] tells whether the
    session file can be written (when it cannot, it cannot be opened). *)
Definition init (inputs : list (option string)) (now : DateTime.t)
    (ok : bool) (files : list (string * KycData)) : World :=
  mkWorld empty_record 2 inputs now (if ok then Writable else Unopenable)
          files [].

(** The same with any of the three disks. *)
Definition fresh (inputs : list (option string)) (now : DateTime.t)
    (d : Disk) (files : list (string * KycData)) : World :=
  mkWorld empty_record 2 inputs now d files [].

(** [speak]: the utterance is rendered (or, when the engine fails, shown);
    either way nothing else changes. *)
Definition speak (text : string) : M unit :=
  fun w => (tt, log (Spoke text) w).

(** [listen]: the next recogniser result, stripped when there is one. *)
Definition listen : M (option string) :=
  fun w =>
    match pending w with
    | [] => (None, log (Listened None) w)
    | r :: rest =>
        let res := option_map strip r in
        (res, log (Listened res) (with_pending rest w))
    end.

(** *** Validation and extraction *)

Definition validate_name (name : string) : bool :=
  if negb (truthy name) || (String.length (strip name) <? 2)%nat then false
  else if negb (re_search_alpha name) then false
  else true.

Definition validate_phone (phone : string) : bool :=
  let phone_cleaned := re_sub_non_digits phone in
  (String.length phone_cleaned =? 10)%nat && isdigit phone_cleaned.

Definition validate_pan (pan : string) : bool :=
  let pan_cleaned := upper (remove_spaces pan) in
  (String.length pan_cleaned =? 10)%nat && re_match_pan pan_cleaned.

Definition extract_phone (text : string) : string :=
  let digits := re_sub_non_digits text in
  if (10 <=? String.length digits)%nat then slice_to 10 digits else digits.

Definition extract_pan (text : string) : string :=
  upper (remove_spaces text).

(** [extract_func(user_input) if extract_func else user_input] *)
Definition apply_extract (extract_func : option (string -> string))
    (user_input : string) : string :=
  match extract_func with
  | Some f => f user_input
  | None => user_input
  end.

(** *** [get_input_with_retry] *)

(** The [for attempt in range(self.max_retries)] loop, with the statements
    that follow the loop in the empty case. *)
Fixpoint get_input_with_retry_loop (validation_func : string -> bool)
    (extract_func : option (string -> string)) (field_name : string)
    (attempts : list nat) : M (option string) :=
  match attempts with
  | [] =>
      speak ("I was unable to verify your " ++ field_name ++ ".") ;;
      ret None
  | attempt :: rest =>
      speak ("That " ++ field_name ++ " doesn't seem valid. Please try again.") ;;
      user_input <- listen ;;
      match user_input with
      | None =>
          m <- get_max_retries ;;
          if (attempt <? m - 1)%nat then
            speak "I didn't catch that. Let's try again." ;;
            get_input_with_retry_loop validation_func extract_func field_name rest
          else
            speak "I'm sorry, I couldn't hear your response." ;;
            ret None
      | Some text =>
          let processed_input := apply_extract extract_func text in
          if validation_func processed_input then ret (Some processed_input)
          else get_input_with_retry_loop validation_func extract_func field_name rest
      end
  end.

(** Everything from "Now we have input, validate it" on. *)
Definition get_input_with_retry_validate (validation_func : string -> bool)
    (extract_func : option (string -> string)) (field_name : string)
    (user_input : string) : M (option string) :=
  let processed_input := apply_extract extract_func user_input in
  if validation_func processed_input then ret (Some processed_input)
  else
    m <- get_max_retries ;;
    get_input_with_retry_loop validation_func extract_func field_name (seq 0 m).

Definition get_input_with_retry (prompt : string)
    (validation_func : string -> bool)
    (extract_func : option (string -> string)) (field_name : string)
    : M (option string) :=
  let validate :=
    get_input_with_retry_validate validation_func extract_func field_name in
  speak prompt ;;
  user_input <- listen ;;
  match user_input with
  | Some text => validate text
  | None =>
      speak "I didn't catch that. Please say it again." ;;
      user_input <- listen ;;
      match user_input with
      | Some text => validate text
      | None =>
          speak "I'm still having trouble hearing you. Let's try one more time." ;;
          user_input <- listen ;;
          match user_input with
          | Some text => validate text
          | None =>
              speak ("I'm sorry, I couldn't hear your " ++ field_name ++ ".") ;;
              ret None
          end
      end
  end.

(** *** [get_consent] *)

Fixpoint get_consent_loop (attempts : list nat) : M bool :=
  match attempts with
  | [] =>
      speak "I couldn't understand your response. Verification cannot proceed." ;;
      ret false
  | attempt :: rest =>
      speak "Please say yes or no." ;;
      response <- listen ;;
      match response with
      | None =>
          m <- get_max_retries ;;
          if (attempt <? m - 1)%nat then
            speak "I didn't hear you. Say yes or no." ;;
            get_consent_loop rest
          else
            speak "I couldn't get your consent. Verification cannot proceed." ;;
            ret false
      | Some response =>
          let response_lower := lower response in
          if contains "yes" response_lower || contains "yeah" response_lower
             || contains "sure" response_lower then ret true
          else if contains "no" response_lower || contains "nope" response_lower then
            speak "You have declined consent. Verification cannot proceed." ;;
            ret false
          else get_consent_loop rest
      end
  end.

(** Everything from "Check the response" on. *)
Definition get_consent_check (response : string) : M bool :=
  let response_lower := lower response in
  if contains "yes" response_lower || contains "yeah" response_lower
     || contains "sure" response_lower then ret true
  else if contains "no" response_lower || contains "nope" response_lower then
    speak "You have declined consent. Verification cannot proceed." ;;
    ret false
  else
    m <- get_max_retries ;;
    get_consent_loop (seq 0 m).

Definition get_consent : M bool :=
  speak "Do you consent to this KYC verification? Please say yes or no." ;;
  response <- listen ;;
  match response with
  | Some text => get_consent_check text
  | None =>
      speak "I didn't catch that. Do you consent? Say yes or no." ;;
      response <- listen ;;
      match response with
      | Some text => get_consent_check text
      | None =>
          speak "Please say yes or no for consent." ;;
          response <- listen ;;
          match response with
          | Some text => get_consent_check text
          | None =>
              speak "I couldn't get your consent. Verification cannot proceed." ;;
              ret false
          end
      end
  end.

(** *** [run_kyc_session], [save_to_json], [main] *)

(** [if x:] on the result of a collector: [None] and the empty text take
    the [else] branch. *)
Definition if_truthy (x : option string) : option string :=
  match x with
  | Some s => if truthy s then Some s else None
  | None => None
  end.

Definition run_kyc_session : M bool :=
  speak "Welcome to Decentro KYC verification. I will guide you through a quick verification process." ;;
  name <- get_input_with_retry "May I have your full name please?"
            validate_name None "name" ;;
  match if_truthy name with
  | None =>
      speak "Unable to proceed without a valid name. Ending verification." ;;
      ret false
  | Some name =>
  assign K_name (VText name) ;;
  phone <- get_input_with_retry
             "Thank you. Now, please provide your 10-digit mobile number."
             validate_phone (Some extract_phone) "phone number" ;;
  match if_truthy phone with
  | None =>
      speak "Unable to proceed without a valid phone number. Ending verification." ;;
      ret false
  | Some phone =>
  assign K_phone (VText phone) ;;
  pan <- get_input_with_retry
           "Great. Now, please say your PAN number. That's 10 characters: 5 letters, 4 numbers, and 1 letter."
           validate_pan (Some extract_pan) "PAN" ;;
  match if_truthy pan with
  | None =>
      speak "Unable to proceed without a valid PAN. Ending verification." ;;
      ret false
  | Some pan =>
  assign K_pan (VText pan) ;;
  consent <- get_consent ;;
  assign K_consent (VBool consent) ;;
  if negb consent then ret false
  else
    speak "Thank you. Let me confirm your details." ;;
    d <- get_kyc_data ;;
    speak ("Name: " ++ KYCVoiceBot.name d) ;;
    d <- get_kyc_data ;;
    speak ("Phone: " ++ KYCVoiceBot.phone d) ;;
    d <- get_kyc_data ;;
    speak ("PAN: " ++ KYCVoiceBot.pan d) ;;
    speak "Consent: Provided" ;;
    now <- datetime_now ;;
    assign K_timestamp (VText (DateTime.isoformat now)) ;;
    speak "Your KYC verification is complete. Thank you for using Decentro services." ;;
    ret true
  end end end.

(** The files after [open(filename, 'w')] emptied [filename]: it holds no
    record any more. *)
Fixpoint truncate (filename : string) (files : list (string * KycData))
    : list (string * KycData) :=
  match files with
  | [] => []
  | (f, d) :: rest =>
      if f =? filename then truncate filename rest
      else (f, d) :: truncate filename rest
  end.

(** [open(filename, 'w')] and [json.dump]: the file then holds the record.
    An exception is caught and reported; when it comes from [open] the
    file is as before, when it comes from [json.dump] the file was already
    emptied by [open]. *)
Definition save_to_json (filename : string) : M bool :=
  fun w =>
    let d := kyc_data w in
    match disk w with
    | Writable =>
        (true, log (Dumped filename d true) (with_fs ((filename, d) :: fs w) w))
    | Unopenable => (false, log (Dumped filename d false) w)
    | Unwritable =>
        (false, log (Dumped filename d false)
                  (with_fs (truncate filename (fs w)) w))
    end.

Fixpoint read_file (filename : string) (files : list (string * KycData))
    : option KycData :=
  match files with
  | [] => None
  | (f, d) :: rest => if f =? filename then Some d else read_file filename rest
  end.

(** [main], from [bot = KYCVoiceBot()] on; the result is the final state. *)
Definition main (inputs : list (option string)) (now : DateTime.t)
    (ok : bool) (files : list (string * KycData)) : World :=
  snd ((success <- run_kyc_session ;;
        if success then save_to_json "kyc_session.json" ;; ret tt
        else ret tt) (init inputs now ok files)).

(** [main] with any of the three disks. *)
Definition main_with (inputs : list (option string)) (now : DateTime.t)
    (d : Disk) (files : list (string * KycData)) : World :=
  snd ((success <- run_kyc_session ;;
        if success then save_to_json "kyc_session.json" ;; ret tt
        else ret tt) (fresh inputs now d files)).

End KYCVoiceBot.

(* ================================================================= *)
(** ** The vocabulary of the specification *)

Module Spec.

Import PyStr KYCVoiceBot.

Definition chars (s : string) : list ascii := list_ascii_of_string s.

(** [needle] occurs in [hay]. *)
Definition Substring (needle hay : string) : Prop :=
  exists before after : string, hay = (before ++ needle ++ after)%string.

Definition has_alpha (s : string) : Prop :=
  exists c, In c (chars s) /\ is_alpha c = true.

(** The digit characters of a text, in order. *)
Definition digits_of (s : string) : list ascii := List.filter is_digit (chars s).

Definition all_in (p : ascii -> bool) (s : string) : Prop :=
  Forall (fun c => p c = true) (chars s).

Definition ten_digits (s : string) : Prop :=
  String.length s = 10 /\ all_in is_digit s.

(** Five letters, four digits, one letter. *)
Definition pan_pattern (s : string) : Prop :=
  exists (letters digits : string) (last : ascii),
    s = (letters ++ digits ++ String last EmptyString)%string /\
    String.length letters = 5 /\ all_in is_upper letters /\
    String.length digits = 4 /\ all_in is_digit digits /\
    is_upper last = true.

Definition affirmative (response : string) : Prop :=
  Substring "yes" (lower response) \/ Substring "yeah" (lower response) \/
  Substring "sure" (lower response).

Definition negative (response : string) : Prop :=
  Substring "no" (lower response) \/ Substring "nope" (lower response).

Definition decline_msg : string :=
  "You have declined consent. Verification cannot proceed.".

(** *** Reading a trace (kept most recent first) *)

Definition listen_results (evs : list Event) : list (option string) :=
  flat_map (fun e => match e with Listened r => [r] | _ => [] end) evs.

(** Number of [listen] calls. *)
Definition listens (evs : list Event) : nat := List.length (listen_results evs).

(** What the listens returned, oldest first. *)
Definition heard (evs : list Event) : list (option string) :=
  rev (listen_results evs).

(** The captured responses, oldest first. *)
Definition captured (evs : list Event) : list string :=
  flat_map (fun r => match r with Some t => [t] | None => [] end) (heard evs).

(** The utterances, oldest first. *)
Definition spoken (evs : list Event) : list string :=
  rev (flat_map (fun e => match e with Spoke t => [t] | _ => [] end) evs).

(** The assignments to the record with the record each one leaves, oldest
    first. *)
Definition assignments (evs : list Event) : list (Key * KycData) :=
  rev (flat_map (fun e => match e with Assigned k d => [(k, d)] | _ => [] end) evs).

(** The file writes attempted, oldest first. *)
Definition dumps (evs : list Event) : list (string * KycData * bool) :=
  rev (flat_map (fun e => match e with Dumped f d ok => [(f, d, ok)] | _ => [] end) evs).

(** Every value the record takes during a run that starts from [d0]. *)
Definition snapshots (d0 : KycData) (evs : list Event) : list KycData :=
  d0 :: List.map snd (assignments evs).

Definition field_order : list Key :=
  [K_name; K_phone; K_pan; K_consent; K_timestamp].

(** Each text field is still empty or passes its rule. *)
Definition record_ok (d : KycData) : Prop :=
  (name d = EmptyString \/ validate_name (name d) = true) /\
  (phone d = EmptyString \/ ten_digits (phone d)) /\
  (pan d = EmptyString \/ pan_pattern (pan d)).

(** [w'] is [w] after the events [evs] that touch nothing but the
    conversation. *)
Definition talked (w w' : World) (evs : list Event) : Prop :=
  trace w' = evs ++ trace w /\
  kyc_data w' = kyc_data w /\ max_retries w' = max_retries w /\
  clock w' = clock w /\ disk w' = disk w /\ fs w' = fs w.

(** An event of a conversation whose utterances are drawn from [msgs]. *)
Definition says (msgs : list string) (e : Event) : Prop :=
  match e with
  | Spoke t => In t msgs
  | Listened _ => True
  | _ => False
  end.

(** The utterances of one field collector. *)
Definition collector_msgs (prompt field_name : string) : list string :=
  [ prompt;
    "I didn't catch that. Please say it again.";
    "I'm still having trouble hearing you. Let's try one more time.";
    ("I'm sorry, I couldn't hear your " ++ field_name ++ ".")%string;
    ("That " ++ field_name ++ " doesn't seem valid. Please try again.")%string;
    "I didn't catch that. Let's try again.";
    "I'm sorry, I couldn't hear your response.";
    ("I was unable to verify your " ++ field_name ++ ".")%string ].

(** The utterances of the consent step other than the decline
    acknowledgment. *)
Definition consent_msgs : list string :=
  [ "Do you consent to this KYC verification? Please say yes or no.";
    "I didn't catch that. Do you consent? Say yes or no.";
    "Please say yes or no for consent.";
    "I couldn't get your consent. Verification cannot proceed.";
    "Please say yes or no.";
    "I didn't hear you. Say yes or no.";
    "I couldn't understand your response. Verification cannot proceed." ].

(** *** The shape of a consent step *)

(** An event of a consent step that decides nothing: a prompt, a silent
    listen, or a captured response with no keyword in it. *)
Definition undecided (e : Event) : Prop :=
  match e with
  | Spoke t => In t consent_msgs
  | Listened (Some r) => ~ affirmative r /\ ~ negative r
  | Listened None => True
  | _ => False
  end.

(** Result and events (most recent first) of a consent step. *)
Inductive consent_run : bool -> list Event -> Prop :=
  | consent_yes (r : string) (old : list Event) :
      affirmative r -> Forall undecided old ->
      consent_run true (Listened (Some r) :: old)
  | consent_no (r : string) (old : list Event) :
      ~ affirmative r -> negative r -> Forall undecided old ->
      consent_run false (Spoke decline_msg :: Listened (Some r) :: old)
  | consent_unresolved (evs : list Event) :
      Forall undecided evs ->
      consent_run false evs.

(** What the listens of one collector may return, oldest first: three
    absences and nothing more, or at most two absences, a capture, and at
    most [retries] further listens. *)
Definition listen_pattern (retries : nat) (result_absent : Prop)
    (hs : list (option string)) : Prop :=
  (result_absent /\ hs = [None; None; None]) \/
  (exists (k : nat) (t : string) (later : list (option string)),
      k <= 2 /\ hs = repeat None k ++ Some t :: later /\
      List.length later <= retries).

(** *** The shape of a session *)

Definition welcome_msg : string :=
  "Welcome to Decentro KYC verification. I will guide you through a quick verification process.".
Definition name_prompt : string := "May I have your full name please?".
Definition phone_prompt : string :=
  "Thank you. Now, please provide your 10-digit mobile number.".
Definition pan_prompt : string :=
  "Great. Now, please say your PAN number. That's 10 characters: 5 letters, 4 numbers, and 1 letter.".
Definition unable_name : string :=
  "Unable to proceed without a valid name. Ending verification.".
Definition unable_phone : string :=
  "Unable to proceed without a valid phone number. Ending verification.".
Definition unable_pan : string :=
  "Unable to proceed without a valid PAN. Ending verification.".
Definition summary_intro : string := "Thank you. Let me confirm your details.".
Definition complete_msg : string :=
  "Your KYC verification is complete. Thank you for using Decentro services.".

(** A clock reading for the examples. *)
Definition sample_now : DateTime.t := DateTime.mk 2026 11 3 9 5 0 0.

Definition name_msgs : list string := collector_msgs name_prompt "name".
Definition phone_msgs : list string := collector_msgs phone_prompt "phone number".
Definition pan_msgs : list string := collector_msgs pan_prompt "PAN".

(** The confirmation summary of a record, most recent utterance first. *)
Definition summary (d : KycData) : list Event :=
  [ Spoke "Consent: Provided";
    Spoke ("PAN: " ++ pan d); Spoke ("Phone: " ++ phone d);
    Spoke ("Name: " ++ name d); Spoke summary_intro ].

Definition chat (msgs : list string) (evs : list Event) : Prop :=
  Forall (says msgs) evs.

(** Events up to the assignment of each field, most recent first. *)
Definition upto_name (e1 : list Event) (d1 : KycData) : list Event :=
  Assigned K_name d1 :: e1 ++ [Spoke welcome_msg].
Definition upto_phone (e1 e2 : list Event) (d1 d2 : KycData) : list Event :=
  Assigned K_phone d2 :: e2 ++ upto_name e1 d1.
Definition upto_pan (e1 e2 e3 : list Event) (d1 d2 d3 : KycData) : list Event :=
  Assigned K_pan d3 :: e3 ++ upto_phone e1 e2 d1 d2.
Definition upto_consent (e1 e2 e3 e4 : list Event) (d1 d2 d3 d4 : KycData)
    : list Event :=
  Assigned K_consent d4 :: e4 ++ upto_pan e1 e2 e3 d1 d2 d3.

(** The five ways a session started on record [d0] at time [now] can go:
    its result, its events and the record it leaves. *)
Inductive session_run (d0 : KycData) (now : DateTime.t)
    : bool -> list Event -> KycData -> Prop :=
  | run_no_name e1 :
      chat name_msgs e1 ->
      session_run d0 now false (Spoke unable_name :: e1 ++ [Spoke welcome_msg]) d0
  | run_no_phone e1 e2 n d1 :
      chat name_msgs e1 -> chat phone_msgs e2 ->
      validate_name n = true -> d1 = set_item K_name (VText n) d0 ->
      session_run d0 now false (Spoke unable_phone :: e2 ++ upto_name e1 d1) d1
  | run_no_pan e1 e2 e3 n p d1 d2 :
      chat name_msgs e1 -> chat phone_msgs e2 -> chat pan_msgs e3 ->
      validate_name n = true -> d1 = set_item K_name (VText n) d0 ->
      ten_digits p -> d2 = set_item K_phone (VText p) d1 ->
      session_run d0 now false
        (Spoke unable_pan :: e3 ++ upto_phone e1 e2 d1 d2) d2
  | run_no_consent e1 e2 e3 e4 n p i d1 d2 d3 d4 :
      chat name_msgs e1 -> chat phone_msgs e2 -> chat pan_msgs e3 ->
      validate_name n = true -> d1 = set_item K_name (VText n) d0 ->
      ten_digits p -> d2 = set_item K_phone (VText p) d1 ->
      pan_pattern i -> d3 = set_item K_pan (VText i) d2 ->
      consent_run false e4 -> d4 = set_item K_consent (VBool false) d3 ->
      session_run d0 now false (upto_consent e1 e2 e3 e4 d1 d2 d3 d4) d4
  | run_complete e1 e2 e3 e4 n p i d1 d2 d3 d4 d5 :
      chat name_msgs e1 -> chat phone_msgs e2 -> chat pan_msgs e3 ->
      validate_name n = true -> d1 = set_item K_name (VText n) d0 ->
      ten_digits p -> d2 = set_item K_phone (VText p) d1 ->
      pan_pattern i -> d3 = set_item K_pan (VText i) d2 ->
      consent_run true e4 -> d4 = set_item K_consent (VBool true) d3 ->
      d5 = set_item K_timestamp (VText (DateTime.isoformat now)) d4 ->
      session_run d0 now true
        (Spoke complete_msg :: Assigned K_timestamp d5 ::
         summary d4 ++ upto_consent e1 e2 e3 e4 d1 d2 d3 d4) d5.

(** A value returned by a collector is the extraction of a captured text
    and passes the validation function. *)
Definition accepted (validation_func : string -> bool)
    (extract_func : option (string -> string)) (r : option string) : Prop :=
  forall p, r = Some p ->
    validation_func p = true /\
    exists t, p = apply_extract extract_func t.

(** [w'] is [w] after the events [evs]; only the record and the trace may
    have changed. *)
Definition evolved (w w' : World) (evs : list Event) : Prop :=
  trace w' = evs ++ trace w /\
  max_retries w' = max_retries w /\ clock w' = clock w /\
  disk w' = disk w /\ fs w' = fs w.

(** The three field collections of a session. *)
Definition ask_name : M (option string) :=
  get_input_with_retry name_prompt validate_name None "name".
Definition ask_phone : M (option string) :=
  get_input_with_retry phone_prompt validate_phone (Some extract_phone)
    "phone number".
Definition ask_pan : M (option string) :=
  get_input_with_retry pan_prompt validate_pan (Some extract_pan) "PAN".

(** The events of a collector that hears nothing three times, most recent
    first. *)
Definition gave_up (prompt field_name : string) : list Event :=
  [ Spoke ("I'm sorry, I couldn't hear your " ++ field_name ++ ".");
    Listened None;
    Spoke "I'm still having trouble hearing you. Let's try one more time.";
    Listened None;
    Spoke "I didn't catch that. Please say it again.";
    Listened None;
    Spoke prompt ].

(** Everything that can be said in a session that does not complete. *)
Definition failure_msgs : list string :=
  welcome_msg :: unable_name :: unable_phone :: unable_pan :: decline_msg ::
  name_msgs ++ phone_msgs ++ pan_msgs ++ consent_msgs.

(** The utterances of the confirmation summary and the completion
    message. *)
Definition summary_like (t : string) : bool :=
  prefix "Name: " t || prefix "Phone: " t || prefix "PAN: " t ||
  (t =? "Consent: Provided") || (t =? summary_intro) || (t =? complete_msg).

(** How many times the timestamp was assigned. *)
Definition timestamp_writes (evs : list Event) : nat :=
  List.length
    (List.filter (fun kd => match fst kd with K_timestamp => true | _ => false end)
       (assignments evs)).

(** *** Further vocabulary: how collectors end, and what [main] leaves *)

(** The utterances with which a field collector gives up. *)
Definition final_msgs (field_name : string) : list string :=
  [ ("I'm sorry, I couldn't hear your " ++ field_name ++ ".")%string;
    "I'm sorry, I couldn't hear your response.";
    ("I was unable to verify your " ++ field_name ++ ".")%string ].

(** The utterances with which the consent step ends without consent. *)
Definition consent_final_msgs : list string :=
  [ decline_msg;
    "I couldn't get your consent. Verification cannot proceed.";
    "I couldn't understand your response. Verification cannot proceed." ].

(** How a field collector ends, read on the trace it leaves: a value is
    returned right after the listen that captured it; absence is returned
    right after a giving-up utterance. *)
Definition collector_end (validation_func : string -> bool)
    (extract_func : option (string -> string)) (field_name : string)
    (r : option string) (tr : list Event) : Prop :=
  match r with
  | Some p =>
      exists t old,
        tr = Listened (Some t) :: old /\ strip t = t /\
        p = apply_extract extract_func t /\ validation_func p = true
  | None =>
      exists m old, tr = Spoke m :: old /\ In m (final_msgs field_name)
  end.

(** How the consent step ends, read on the trace it leaves. *)
Definition consent_end (b : bool) (tr : list Event) : Prop :=
  if b then
    exists r old, tr = Listened (Some r) :: old /\ strip r = r /\ affirmative r
  else
    exists m old, tr = Spoke m :: old /\ In m consent_final_msgs.

(** The name of the file [main] writes. *)
Definition session_file : string := "kyc_session.json".

(** *** Counting the retries of the consent step *)

(** The prompt that opens every retry of the consent step. *)
Definition consent_retry_msg : string := "Please say yes or no.".

(** How many times [m] was spoken. *)
Definition said (m : string) (evs : list Event) : nat :=
  List.length
    (List.filter (fun e => match e with Spoke t => t =? m | _ => false end) evs).

(** The retries of a consent step, read on what its listens returned
    (oldest first) and on its events: nothing was captured in three
    listens and no retry was made; or, after the first capture, every
    further listen was opened by the retry prompt, and a run in which no
    captured response holds a keyword went through all [retries] of
    them. *)
Definition consent_retries (retries : nat) (evs : list Event) : Prop :=
  (heard evs = [None; None; None] /\ said consent_retry_msg evs = 0) \/
  (exists (k : nat) (t : string) (later : list (option string)),
      k <= 2 /\ heard evs = repeat None k ++ Some t :: later /\
      said consent_retry_msg evs = List.length later /\
      ((forall r, In r (captured evs) -> ~ affirmative r /\ ~ negative r) ->
       List.length later = retries)).

End Spec.

(* ================================================================= *)
(** ** Facts about the string primitives *)

Module PyStrFacts.

Import PyStr Spec.

Lemma prefix_split (n h : string) :
  prefix n h = true <-> exists b : string, h = (n ++ b)%string.
Proof.
  revert h; induction n as [|c n IH]; intros h.
  - destruct h; simpl; split; eauto.
  - destruct h as [|c' h]; simpl.
    + split; [discriminate | intros [b Hb]; discriminate].
    + destruct (ascii_dec c c') as [->|Hne].
      * rewrite IH. split; intros [b Hb]; exists b; congruence.
      * split; [discriminate | intros [b Hb]; congruence].
Qed.

Lemma contains_Substring (n h : string) :
  contains n h = true <-> Substring n h.
Proof.
  induction h as [|c h IH].
  - cbn [contains]. rewrite orb_false_r, prefix_split. split.
    + intros [b Hb]. exists EmptyString, b. exact Hb.
    + intros [[|x a] [b Hb]]; [exists b; exact Hb | discriminate].
  - cbn [contains]. rewrite orb_true_iff, prefix_split, IH. split.
    + intros [[b Hb] | [a [b Hab]]].
      * exists EmptyString, b. exact Hb.
      * exists (String c a), b. simpl. now rewrite Hab.
    + intros [[|x a] [b Hb]].
      * left. exists b. exact Hb.
      * right. exists a, b. simpl in Hb. congruence.
Qed.

Lemma length_chars (s : string) : String.length s = List.length (chars s).
Proof. induction s; simpl; congruence. Qed.

Lemma chars_filter (p : ascii -> bool) (s : string) :
  chars (PyStr.filter p s) = List.filter p (chars s).
Proof.
  unfold chars. induction s as [|c s IH]; simpl; [reflexivity|].
  destruct (p c); simpl; now rewrite IH.
Qed.

Lemma slice_to_firstn (n : nat) (s : string) :
  slice_to n s = string_of_list_ascii (firstn n (chars s)).
Proof.
  unfold slice_to. revert s; induction n as [|n IH]; intros [|c s]; simpl;
    try reflexivity.
  now rewrite IH.
Qed.

Lemma forallb_all_in (p : ascii -> bool) (s : string) :
  PyStr.forallb p s = true <-> all_in p s.
Proof.
  unfold all_in. induction s as [|c s IH]; simpl.
  - split; auto.
  - rewrite andb_true_iff, IH. split.
    + intros [H1 H2]. now constructor.
    + intros H. inversion H; subst. auto.
Qed.

Lemma existsb_has_alpha (s : string) :
  re_search_alpha s = true <-> has_alpha s.
Proof.
  unfold re_search_alpha, has_alpha. induction s as [|c s IH]; simpl.
  - split; [discriminate | intros [c [[] _]]].
  - rewrite orb_true_iff, IH. split.
    + intros [H | [x [Hin Hx]]]; [exists c | exists x]; auto.
    + intros [x [[<- | Hin] Hx]]; [left | right; exists x]; auto.
Qed.

Lemma forallb_filter (p : ascii -> bool) (s : string) :
  PyStr.forallb p (PyStr.filter p s) = true.
Proof.
  induction s as [|c s IH]; simpl; [reflexivity|].
  destruct (p c) eqn:E; simpl; [rewrite E|]; exact IH.
Qed.

Lemma filter_fixed (p : ascii -> bool) (s : string) :
  PyStr.forallb p s = true -> PyStr.filter p s = s.
Proof.
  induction s as [|c s IH]; simpl; [reflexivity|].
  intros H. apply andb_true_iff in H as [H1 H2]. rewrite H1, IH; auto.
Qed.

Lemma filter_filter (p : ascii -> bool) (s : string) :
  PyStr.filter p (PyStr.filter p s) = PyStr.filter p s.
Proof. apply filter_fixed, forallb_filter. Qed.

Lemma forallb_slice (p : ascii -> bool) (n : nat) (s : string) :
  PyStr.forallb p s = true -> PyStr.forallb p (slice_to n s) = true.
Proof.
  unfold slice_to. revert s; induction n as [|n IH]; intros [|c s]; simpl; auto.
  intros H. apply andb_true_iff in H as [H1 H2]. rewrite H1. simpl. auto.
Qed.

Lemma length_slice (n : nat) (s : string) :
  String.length (slice_to n s) = Nat.min n (String.length s).
Proof.
  unfold slice_to. revert s; induction n as [|n IH]; intros [|c s]; simpl; auto.
Qed.

Lemma truthy_length (s : string) : truthy s = true <-> 0 < String.length s.
Proof. destruct s; simpl; split; intros; (lia || discriminate || reflexivity). Qed.

(** Upper-casing never produces or removes a space, and is idempotent. *)
Lemma to_upper_space (c : ascii) :
  Ascii.eqb (to_upper c) " " = Ascii.eqb c " ".
Proof. destruct c as [[] [] [] [] [] [] [] []]; reflexivity. Qed.

Lemma to_upper_idem (c : ascii) : to_upper (to_upper c) = to_upper c.
Proof. destruct c as [[] [] [] [] [] [] [] []]; reflexivity. Qed.

Lemma remove_spaces_upper (s : string) :
  remove_spaces (upper s) = upper (remove_spaces s).
Proof.
  unfold remove_spaces, upper. induction s as [|c s IH]; simpl; [reflexivity|].
  rewrite to_upper_space. destruct (Ascii.eqb c " "); simpl; now rewrite IH.
Qed.

Lemma upper_idem (s : string) : upper (upper s) = upper s.
Proof.
  unfold upper. induction s as [|c s IH]; simpl; [reflexivity|].
  now rewrite to_upper_idem, IH.
Qed.

(** Cleaning an identifier twice is cleaning it once. *)
Lemma extract_pan_idem (s : string) :
  KYCVoiceBot.extract_pan (KYCVoiceBot.extract_pan s) = KYCVoiceBot.extract_pan s.
Proof.
  unfold KYCVoiceBot.extract_pan.
  rewrite remove_spaces_upper, upper_idem. f_equal.
  apply filter_filter.
Qed.

(** [strip] removes white space at both ends and nothing else: the text
    is white space, the stripped text, white space, and the stripped text
    neither starts nor ends with white space. *)
Lemma lstrip_split (s : string) :
  exists l : string,
    s = (l ++ lstrip s)%string /\ all_in is_space l /\
    forall c t, lstrip s = String c t -> is_space c = false.
Proof.
  induction s as [|c s (l & Hs & Hl & Hh)]; cbn [lstrip].
  - exists EmptyString. repeat split; [constructor | discriminate].
  - destruct (is_space c) eqn:E.
    + exists (String c l). cbn. rewrite <- Hs.
      repeat split; [now constructor | exact Hh].
    + exists EmptyString. repeat split; [constructor|].
      now intros c' t [= <- _].
Qed.

Lemma rstrip_split (s : string) :
  exists r : string, s = (rstrip s ++ r)%string /\ all_in is_space r.
Proof.
  induction s as [|c s (r & Hs & Hr)]; cbn [rstrip].
  - exists EmptyString. split; [reflexivity | constructor].
  - destruct (rstrip s) as [|c' t] eqn:E.
    + cbn in Hs. subst r. destruct (is_space c) eqn:Ec.
      * exists (String c s). split; [reflexivity | now constructor].
      * exists s. split; [reflexivity | exact Hr].
    + exists r. split; [|exact Hr]. cbn in Hs |- *. congruence.
Qed.

Lemma rstrip_last (s p : string) (c : ascii) :
  rstrip s = (p ++ String c EmptyString)%string -> is_space c = false.
Proof.
  revert p; induction s as [|a s IH]; intros p; cbn [rstrip].
  - destruct p; discriminate.
  - destruct (rstrip s) as [|c' t] eqn:E.
    + destruct (is_space a) eqn:Ea; [destruct p; discriminate|].
      destruct p as [|x p]; cbn.
      * now intros [= <-].
      * intros [= _ H]. destruct p; discriminate.
    + destruct p as [|x p]; cbn.
      * discriminate.
      * intros [= _ H]. now apply (IH p).
Qed.

Lemma rstrip_head (c : ascii) (s : string) :
  is_space c = false -> exists t, rstrip (String c s) = String c t.
Proof.
  intros E. cbn [rstrip]. destruct (rstrip s); [rewrite E|]; eauto.
Qed.

Lemma strip_spec (s : string) :
  exists l r : string,
    s = (l ++ strip s ++ r)%string /\
    all_in is_space l /\ all_in is_space r /\
    (forall c t, strip s = String c t -> is_space c = false) /\
    (forall p c, strip s = (p ++ String c EmptyString)%string ->
                 is_space c = false).
Proof.
  unfold strip.
  destruct (lstrip_split s) as (l & Hs & Hl & Hh).
  destruct (rstrip_split (lstrip s)) as (r & Hm & Hr).
  exists l, r. repeat split; auto.
  - now rewrite <- Hm.
  - intros c t H. destruct (lstrip s) as [|c' t'] eqn:E; [discriminate|].
    pose proof (Hh c' t' eq_refl) as Hc.
    destruct (rstrip_head c' t' Hc) as [t'' Ht]. congruence.
  - intros p c. apply rstrip_last.
Qed.

End PyStrFacts.

(* ================================================================= *)
(** ** The three validators and the two extractors *)

Module ValidationProps.

Import PyStr KYCVoiceBot Spec PyStrFacts.

(** C4. Name validation fails exactly when the trimmed text has fewer than
    two characters or the text has no alphabetic character; ["A"] and
    ["123"] are rejected, ["Al"] is accepted. *)
Theorem validate_name_false_iff :
  (forall s : string,
      validate_name s = false <->
      (String.length (strip s) < 2 \/ ~ has_alpha s)) /\
  validate_name "A" = false /\
  validate_name "123" = false /\
  validate_name "Al" = true.
Proof.
  split; [|repeat split; reflexivity].
  intros s. unfold validate_name.
  destruct (truthy s) eqn:Ht; simpl.
  - destruct (Nat.ltb_spec (String.length (strip s)) 2) as [Hlt|Hge].
    + split; auto.
    + destruct (re_search_alpha s) eqn:Ha; simpl.
      * apply existsb_has_alpha in Ha. split; [discriminate|].
        intros [H|H]; [lia | contradiction].
      * split; auto. intros _. right. intros H.
        apply existsb_has_alpha in H. congruence.
  - split; auto. intros _. left.
    destruct s; [simpl; lia | discriminate].
Qed.

Lemma string_length_app (a b : string) :
  String.length (a ++ b) = String.length a + String.length b.
Proof. induction a; simpl; congruence. Qed.

Lemma isdigit_filter (s : string) :
  String.length (re_sub_non_digits s) = 10 ->
  isdigit (re_sub_non_digits s) = true.
Proof.
  intros H. unfold isdigit, re_sub_non_digits in *.
  rewrite forallb_filter, andb_true_r.
  destruct (PyStr.filter is_digit s); [discriminate | reflexivity].
Qed.

Lemma validate_phone_iff (s : string) :
  validate_phone s = true <-> List.length (digits_of s) = 10.
Proof.
  unfold validate_phone, digits_of.
  rewrite <- chars_filter, <- length_chars. fold (re_sub_non_digits s).
  split.
  - intros H. apply andb_true_iff in H as [H _]. now apply Nat.eqb_eq in H.
  - intros H. rewrite isdigit_filter by exact H. now rewrite H.
Qed.

Lemma extract_phone_digits (s : string) :
  extract_phone s = string_of_list_ascii (firstn 10 (digits_of s)).
Proof.
  unfold extract_phone, digits_of. rewrite <- chars_filter.
  fold (re_sub_non_digits s).
  destruct (Nat.leb_spec 10 (String.length (re_sub_non_digits s))) as [H|H].
  - apply slice_to_firstn.
  - rewrite firstn_all2 by (rewrite <- length_chars; lia).
    unfold chars. now rewrite string_of_list_ascii_of_string.
Qed.

(** The extracted phone consists of digits only, at most ten of them. *)
Lemma extract_phone_all_digits (s : string) :
  PyStr.forallb is_digit (extract_phone s) = true.
Proof.
  unfold extract_phone, re_sub_non_digits.
  destruct (10 <=? _)%nat; [apply forallb_slice|]; apply forallb_filter.
Qed.

Lemma extract_phone_length (s : string) :
  String.length (extract_phone s) = Nat.min 10 (List.length (digits_of s)).
Proof.
  unfold extract_phone, digits_of. rewrite <- chars_filter, <- length_chars.
  fold (re_sub_non_digits s).
  destruct (Nat.leb_spec 10 (String.length (re_sub_non_digits s))) as [H|H].
  - apply length_slice.
  - lia.
Qed.

Lemma digits_of_all_digits (s : string) :
  PyStr.forallb is_digit s = true -> List.length (digits_of s) = String.length s.
Proof.
  intros H. unfold digits_of. rewrite <- chars_filter, <- length_chars.
  now rewrite filter_fixed.
Qed.

(** C5. Phone extraction is the digit characters of the text cut to the
    first ten; phone validation accepts exactly the texts with ten digit
    characters; so extraction followed by validation accepts exactly the
    texts with at least ten digit characters. *)
Theorem phone_extract_then_validate :
  (forall s : string,
      extract_phone s = string_of_list_ascii (firstn 10 (digits_of s))) /\
  (forall s : string,
      validate_phone s = true <-> List.length (digits_of s) = 10) /\
  (forall s : string,
      validate_phone (extract_phone s) = true <->
      10 <= List.length (digits_of s)) /\
  extract_phone "my number is 98-765 43210 ok" = "9876543210" /\
  validate_phone (extract_phone "my number is 98-765 43210 ok") = true /\
  extract_phone "123" = "123" /\
  validate_phone (extract_phone "123") = false.
Proof.
  split; [exact extract_phone_digits|].
  split; [exact validate_phone_iff|].
  split; [|repeat split; reflexivity].
  intros s. rewrite validate_phone_iff.
  rewrite digits_of_all_digits by apply extract_phone_all_digits.
  rewrite extract_phone_length. lia.
Qed.

End ValidationProps.

Module PanProps.

Import PyStr KYCVoiceBot Spec PyStrFacts ValidationProps.

(** [match_class p n] succeeds exactly on texts that start with [n]
    characters of the class, and returns what follows them. *)
Lemma match_class_split (p : ascii -> bool) (n : nat) (s r : string) :
  match_class p n s = Some r <->
  exists h : string,
    s = (h ++ r)%string /\ String.length h = n /\ all_in p h.
Proof.
  revert s; induction n as [|n IH]; intros s; simpl.
  - split.
    + intros [= ->]. exists EmptyString. repeat split. constructor.
    + intros [[|c h] [-> [Hl _]]]; [reflexivity | discriminate].
  - destruct s as [|c s].
    + split; [discriminate|]. intros [[|c h] [Heq [Hl _]]]; discriminate.
    + destruct (p c) eqn:Hp.
      * rewrite IH. split.
        -- intros [h [-> [Hl Hall]]]. exists (String c h).
           repeat split; simpl; auto. now constructor.
        -- intros [[|c' h] [Heq [Hl Hall]]]; [discriminate|].
           simpl in Heq. injection Heq as -> ->. exists h.
           repeat split; auto. now inversion Hall.
      * split; [discriminate|].
        intros [[|c' h] [Heq [Hl Hall]]]; [discriminate|].
        simpl in Heq. injection Heq as -> ->. inversion Hall; congruence.
Qed.

Lemma at_dollar_cases (s : string) :
  at_dollar s = true ->
  s = EmptyString \/ s = String (ascii_of_nat 10) EmptyString.
Proof.
  unfold at_dollar. intros H. apply orb_true_iff in H as [H|H];
    apply String.eqb_eq in H; auto.
Qed.

(** What the regular expression accepts: the pattern, possibly followed by
    one final line feed. *)
Lemma re_match_pan_shape (s : string) :
  re_match_pan s = true <->
  exists (l d : string) (x : ascii) (tail : string),
    s = (l ++ d ++ String x tail)%string /\
    String.length l = 5 /\ all_in is_upper l /\
    String.length d = 4 /\ all_in is_digit d /\
    is_upper x = true /\ at_dollar tail = true.
Proof.
  unfold re_match_pan. split.
  - destruct (match_class is_upper 5 s) as [r1|] eqn:E1; [|discriminate].
    destruct (match_class is_digit 4 r1) as [r2|] eqn:E2; [|discriminate].
    destruct (match_class is_upper 1 r2) as [r3|] eqn:E3; [|discriminate].
    intros Hd.
    apply match_class_split in E1 as [l [-> [Hl Hla]]].
    apply match_class_split in E2 as [d [-> [Hd4 Hda]]].
    apply match_class_split in E3 as [[|x [|? ?]] [-> [Hx Hxa]]];
      try discriminate.
    exists l, d, x, r3. repeat split; auto. now inversion Hxa.
  - intros [l [d [x [tail [-> [Hl [Hla [Hd [Hda [Hx Ht]]]]]]]]]].
    assert (E1 : match_class is_upper 5 (l ++ d ++ String x tail)
                 = Some (d ++ String x tail)%string)
      by (apply match_class_split; exists l; auto).
    assert (E2 : match_class is_digit 4 (d ++ String x tail)
                 = Some (String x tail))
      by (apply match_class_split; exists d; auto).
    rewrite E1, E2. simpl. now rewrite Hx.
Qed.

(** With the length test in front, the final line feed is excluded. *)
Lemma pan_cleaned_ok (c : string) :
  (String.length c =? 10)%nat && re_match_pan c = true <->
  String.length c = 10 /\ pan_pattern c.
Proof.
  rewrite andb_true_iff, Nat.eqb_eq, re_match_pan_shape. split.
  - intros [Hlen [l [d [x [tail [-> [Hl [Hla [Hd [Hda [Hx Ht]]]]]]]]]]].
    split; [exact Hlen|].
    rewrite !string_length_app in Hlen. simpl in Hlen.
    destruct tail; [|simpl in Hlen; lia].
    exists l, d, x. repeat split; auto.
  - intros [Hlen [l [d [x [-> [Hl [Hla [Hd [Hda Hx]]]]]]]]].
    split; [exact Hlen|].
    exists l, d, x, EmptyString. repeat split; auto.
Qed.

(** C6. Identifier validation accepts a text exactly when the text with
    its spaces removed and upper-cased has ten characters and is five
    letters, four digits and one letter; ["a b c d e 1 2 3 4 f"] is
    accepted as ["ABCDE1234F"], ["ABCDE12345"] is rejected. *)
Theorem validate_pan_iff :
  (forall s : string,
      validate_pan s = true <->
      (String.length (upper (remove_spaces s)) = 10 /\
       pan_pattern (upper (remove_spaces s)))) /\
  extract_pan "a b c d e 1 2 3 4 f" = "ABCDE1234F" /\
  validate_pan "a b c d e 1 2 3 4 f" = true /\
  validate_pan "ABCDE12345" = false.
Proof.
  split; [|repeat split; reflexivity].
  intros s. unfold validate_pan. apply pan_cleaned_ok.
Qed.

(** A stored identifier, being already cleaned, has the pattern itself. *)
Lemma validate_pan_extracted (t : string) :
  validate_pan (extract_pan t) = true -> pan_pattern (extract_pan t).
Proof.
  unfold validate_pan. fold (extract_pan (extract_pan t)).
  rewrite extract_pan_idem. intros H. now apply pan_cleaned_ok in H.
Qed.

(** A stored phone number, being digits only, is ten digits itself. *)
Lemma validate_phone_extracted (t : string) :
  validate_phone (extract_phone t) = true -> ten_digits (extract_phone t).
Proof.
  intros H. apply validate_phone_iff in H.
  rewrite digits_of_all_digits in H by apply extract_phone_all_digits.
  split; [exact H|]. apply forallb_all_in, extract_phone_all_digits.
Qed.

End PanProps.

(* ================================================================= *)
(** ** The field collector *)

Module CollectorProps.

Import PyStr KYCVoiceBot Spec.

Lemma talked_refl (w : World) : talked w w [].
Proof. repeat split. Qed.

Lemma talked_trans (w1 w2 w3 : World) (e1 e2 : list Event) :
  talked w1 w2 e1 -> talked w2 w3 e2 -> talked w1 w3 (e2 ++ e1).
Proof.
  unfold talked. intros (T1 & K1 & M1 & C1 & D1 & F1) (T2 & K2 & M2 & C2 & D2 & F2).
  rewrite T2, T1, <- app_assoc. repeat split; congruence.
Qed.

Lemma talked_speak (t : string) (w : World) :
  talked w (snd (speak t w)) [Spoke t].
Proof. repeat split. Qed.

Lemma talked_listen (w w' : World) (r : option string) :
  listen w = (r, w') -> talked w w' [Listened r].
Proof.
  unfold listen. destruct (pending w) as [|x rest]; intros [= <- <-];
    repeat split.
Qed.

Lemma listens_app (a b : list Event) : listens (a ++ b) = listens a + listens b.
Proof. unfold listens, listen_results. now rewrite flat_map_app, length_app. Qed.

Lemma heard_app (a b : list Event) : heard (a ++ b) = heard b ++ heard a.
Proof. unfold heard, listen_results. now rewrite flat_map_app, rev_app_distr. Qed.

Lemma heard_length (evs : list Event) : List.length (heard evs) = listens evs.
Proof. unfold heard, listens. apply length_rev. Qed.

Lemma talked_log (e : Event) (w w1 : World) (evs : list Event) :
  talked w w1 evs -> talked w (log e w1) (e :: evs).
Proof.
  unfold talked. intros (T & K & M & C & D & F). cbn. rewrite T.
  repeat split; assumption.
Qed.

Lemma listens_cons (e : Event) (evs : list Event) :
  listens (e :: evs) =
  (match e with Listened _ => 1 | _ => 0 end) + listens evs.
Proof. destruct e; reflexivity. Qed.

Lemma heard_cons (e : Event) (evs : list Event) :
  heard (e :: evs) =
  heard evs ++ (match e with Listened r => [r] | _ => [] end).
Proof. unfold heard. destruct e; cbn; now rewrite ?app_nil_r. Qed.

(** Relating a state to an earlier one through the steps in between. *)
Ltac talk :=
  lazymatch goal with
  | |- talked ?w ?w _ => apply talked_refl
  | H : talked _ ?w1 _ |- talked _ ?w1 _ =>
      first [ exact H | eapply talked_trans; [ | exact H ]; talk ]
  | |- talked _ (log _ _) _ => apply talked_log; talk
  end.

Ltac chatter :=
  unfold chat in *;
  repeat first [ assumption | apply Forall_nil
               | apply Forall_cons | (apply Forall_app; split) ];
  cbn; tauto.

Ltac count_listens :=
  repeat first [ rewrite listens_cons | rewrite listens_app ];
  change (listens []) with 0; cbn [Nat.add]; lia.

Section Collector.

Variables (prompt : string) (validation_func : string -> bool)
          (extract_func : option (string -> string)) (field_name : string).

Lemma loop_spec (attempts : list nat) :
  forall w r w',
    get_input_with_retry_loop validation_func extract_func field_name attempts w
      = (r, w') ->
    exists evs,
      talked w w' evs /\ chat (collector_msgs prompt field_name) evs /\
      listens evs <= List.length attempts /\
      accepted validation_func extract_func r.
Proof.
  induction attempts as [|attempt rest IH]; intros w r w'; simpl.
  - unfold bind, speak, ret. intros [= <- <-].
    eexists. split; [talk|]. split; [chatter|]. split; [count_listens|].
    intros p [=].
  - unfold bind at 1 2. cbn [speak].
    destruct (listen _) as [[text|] w1] eqn:L; apply talked_listen in L.
    + destruct (validation_func (apply_extract extract_func text)) eqn:V.
      * unfold ret. intros [= <- <-].
        eexists. split; [talk|]. split; [chatter|]. split; [count_listens|].
        intros p [= <-]. eauto.
      * intros H. apply IH in H as (evs & T & C & N & A).
        eexists. split; [talk|]. split; [chatter|]. split; [count_listens|].
        exact A.
    + unfold bind, get_max_retries.
      destruct (attempt <? max_retries w1 - 1)%nat.
      * cbn [speak]. intros H. apply IH in H as (evs & T & C & N & A).
        eexists. split; [talk|]. split; [chatter|]. split; [count_listens|].
        exact A.
      * cbn [speak ret]. intros [= <- <-].
        eexists. split; [talk|]. split; [chatter|]. split; [count_listens|].
        intros p [=].
Qed.

Lemma validate_spec (text : string) :
  forall w r w',
    get_input_with_retry_validate validation_func extract_func field_name text w
      = (r, w') ->
    exists evs,
      talked w w' evs /\ chat (collector_msgs prompt field_name) evs /\
      listens evs <= max_retries w /\
      accepted validation_func extract_func r.
Proof.
  intros w r w'. unfold get_input_with_retry_validate.
  destruct (validation_func (apply_extract extract_func text)) eqn:V.
  - unfold ret. intros [= <- <-].
    exists []. split; [talk|]. split; [chatter|]. split; [count_listens|].
    intros p [= <-]. eauto.
  - unfold bind, get_max_retries. intros H.
    apply loop_spec in H as (evs & T & C & N & A).
    rewrite length_seq in N. eauto.
Qed.

Lemma talked_max_retries (w w' : World) (evs : list Event) :
  talked w w' evs -> max_retries w' = max_retries w.
Proof. intros (_ & _ & M & _). exact M. Qed.

(** The collector: it only talks, what it returns was validated, and its
    listens follow the pattern of the two retry phases. *)
Lemma get_input_with_retry_spec :
  forall w r w',
    get_input_with_retry prompt validation_func extract_func field_name w
      = (r, w') ->
    exists evs,
      talked w w' evs /\ chat (collector_msgs prompt field_name) evs /\
      accepted validation_func extract_func r /\
      listen_pattern (max_retries w) (r = None) (heard evs).
Proof.
  intros w r w'. unfold get_input_with_retry.
  unfold bind at 1 2. cbn [speak].
  destruct (listen _) as [[t1|] w1] eqn:L1; apply talked_listen in L1.
  { intros H. apply validate_spec in H as (evs & T & C & N & A).
    assert (M : max_retries w1 = max_retries w)
      by (eapply talked_max_retries; talk).
    eexists. split; [talk|]. split; [chatter|]. split; [exact A|].
    right. exists 0, t1, (heard evs).
    split; [lia|]. split; [|rewrite heard_length; lia].
    now rewrite heard_app. }
  unfold bind at 1 2. cbn [speak].
  destruct (listen _) as [[t2|] w2] eqn:L2; apply talked_listen in L2.
  { intros H. apply validate_spec in H as (evs & T & C & N & A).
    assert (M : max_retries w2 = max_retries w)
      by (eapply talked_max_retries; talk).
    eexists. split; [talk|]. split; [chatter|]. split; [exact A|].
    right. exists 1, t2, (heard evs).
    split; [lia|]. split; [|rewrite heard_length; lia].
    now rewrite !heard_app. }
  unfold bind at 1 2. cbn [speak].
  destruct (listen _) as [[t3|] w3] eqn:L3; apply talked_listen in L3.
  { intros H. apply validate_spec in H as (evs & T & C & N & A).
    assert (M : max_retries w3 = max_retries w)
      by (eapply talked_max_retries; talk).
    eexists. split; [talk|]. split; [chatter|]. split; [exact A|].
    right. exists 2, t3, (heard evs).
    split; [lia|]. split; [|rewrite heard_length; lia].
    now rewrite !heard_app. }
  unfold bind, ret. cbn [speak]. intros [= <- <-].
  eexists. split; [talk|]. split; [chatter|]. split; [intros p [=]|].
  left. split; [reflexivity|]. now rewrite !heard_cons, !heard_app.
Qed.

(** Three absences in a row: the collector gives up after exactly those
    three listens and touches nothing else. *)
Lemma get_input_with_retry_silent (w : World) (rest : list (option string)) :
  pending w = None :: None :: None :: rest ->
  exists w',
    get_input_with_retry prompt validation_func extract_func field_name w
      = (None, w') /\
    pending w' = rest /\
    talked w w'
      [ Spoke ("I'm sorry, I couldn't hear your " ++ field_name ++ ".");
        Listened None;
        Spoke "I'm still having trouble hearing you. Let's try one more time.";
        Listened None;
        Spoke "I didn't catch that. Please say it again.";
        Listened None;
        Spoke prompt ].
Proof.
  intros H. unfold get_input_with_retry, bind, listen, speak, ret.
  cbn. rewrite H. cbn. eexists. split; [reflexivity|].
  split; [reflexivity|]. repeat split.
Qed.

End Collector.

(** Events are determined by the two traces they lie between. *)
Lemma events_unique (w w' : World) (e1 e2 : list Event) :
  trace w' = e1 ++ trace w -> trace w' = e2 ++ trace w -> e1 = e2.
Proof. intros H1 H2. rewrite H1 in H2. now apply app_inv_tail in H2. Qed.

Lemma listen_pattern_length (m : nat) (P : Prop) (hs : list (option string)) :
  listen_pattern m P hs -> List.length hs <= 3 + m.
Proof.
  intros [[_ ->] | (k & t & later & Hk & -> & Hl)]; cbn; [lia|].
  rewrite length_app, repeat_length. cbn. lia.
Qed.

(** C8. With two retries, the listens of one field collection are at most
    three up to and including the first capture and at most two after it,
    absences after the capture counting against those two: never more
    than five listens. *)
Theorem collector_listen_bound :
  forall (prompt : string) (validation_func : string -> bool)
         (extract_func : option (string -> string)) (field_name : string)
         (w w' : World) (r : option string) (evs : list Event),
    max_retries w = 2 ->
    get_input_with_retry prompt validation_func extract_func field_name w
      = (r, w') ->
    trace w' = evs ++ trace w ->
    listen_pattern (max_retries w) (r = None) (heard evs) /\
    listens evs <= 2 * max_retries w + 1 /\
    listens evs <= 5.
Proof.
  intros prompt v e f w w' r evs Hm Hrun Htr.
  apply get_input_with_retry_spec in Hrun as (evs0 & T & _ & _ & P).
  destruct T as (T & _).
  rewrite (events_unique _ _ _ _ Htr T).
  split; [exact P|].
  apply listen_pattern_length in P. rewrite heard_length in P. lia.
Qed.

Lemma collector_listen_bound_witness :
  let w := init [Some "1"; None; Some "2"; Some "John Smith"] sample_now true [] in
  let res := get_input_with_retry name_prompt validate_name None "name" w in
  fst res = None /\
  heard (trace (snd res)) = [Some "1"; None; Some "2"] /\
  listens (trace (snd res)) <= 5.
Proof.
  cbv zeta. split; [reflexivity|]. split; [reflexivity|].
  set (w := init [Some "1"; None; Some "2"; Some "John Smith"] sample_now true []).
  set (res := get_input_with_retry name_prompt validate_name None "name" w).
  refine (proj2 (proj2 (collector_listen_bound name_prompt validate_name None
                          "name" w (snd res) (fst res) (trace (snd res)) _ _ _)));
    reflexivity.
Defined.

End CollectorProps.

(* ================================================================= *)
(** ** The consent step *)

Module ConsentProps.

Import PyStr KYCVoiceBot Spec PyStrFacts CollectorProps.

Lemma affirmative_iff (r : string) :
  contains "yes" (lower r) || contains "yeah" (lower r)
    || contains "sure" (lower r) = true <-> affirmative r.
Proof.
  unfold affirmative. rewrite !orb_true_iff, !contains_Substring. tauto.
Qed.

Lemma negative_iff (r : string) :
  contains "no" (lower r) || contains "nope" (lower r) = true <-> negative r.
Proof.
  unfold negative. rewrite !orb_true_iff, !contains_Substring. tauto.
Qed.

Lemma not_affirmative (r : string) :
  contains "yes" (lower r) || contains "yeah" (lower r)
    || contains "sure" (lower r) = false -> ~ affirmative r.
Proof. intros H A. apply affirmative_iff in A. congruence. Qed.

Lemma not_negative (r : string) :
  contains "no" (lower r) || contains "nope" (lower r) = false -> ~ negative r.
Proof. intros H A. apply negative_iff in A. congruence. Qed.

(** Earlier undecided events can be put under any consent run. *)
Lemma consent_run_app (b : bool) (evs pre : list Event) :
  consent_run b evs -> Forall undecided pre -> consent_run b (evs ++ pre).
Proof.
  intros H Hpre. destruct H; cbn [app].
  - apply consent_yes; [assumption | now apply Forall_app].
  - apply consent_no; [assumption | assumption | now apply Forall_app].
  - apply consent_unresolved. now apply Forall_app.
Qed.

Ltac hush :=
  repeat first [ assumption | apply Forall_nil
               | apply Forall_cons | (apply Forall_app; split) ];
  unfold undecided, consent_msgs; cbn [In]; tauto.

Lemma consent_loop_spec (attempts : list nat) :
  forall w b w',
    get_consent_loop attempts w = (b, w') ->
    exists evs,
      talked w w' evs /\ consent_run b evs /\
      listens evs <= List.length attempts.
Proof.
  induction attempts as [|attempt rest IH]; intros w b w'; simpl.
  - unfold bind, speak, ret. intros [= <- <-].
    eexists. split; [talk|]. split; [|count_listens].
    apply consent_unresolved. hush.
  - unfold bind at 1 2. cbn [speak].
    destruct (listen _) as [[text|] w1] eqn:L; apply talked_listen in L.
    + destruct (contains "yes" (lower text) || contains "yeah" (lower text)
                || contains "sure" (lower text)) eqn:Y.
      * apply affirmative_iff in Y. unfold ret. intros [= <- <-].
        eexists. split; [talk|]. split; [|count_listens].
        apply consent_yes; [exact Y | hush].
      * apply not_affirmative in Y.
        destruct (contains "no" (lower text) || contains "nope" (lower text)) eqn:N.
        -- apply negative_iff in N. unfold bind, ret. cbn [speak].
           intros [= <- <-].
           eexists. split; [talk|]. split; [|count_listens].
           apply consent_no; [exact Y | exact N | hush].
        -- apply not_negative in N.
           intros H. apply IH in H as (evs & T & C & Hn).
           eexists. split; [talk|]. split; [|count_listens].
           apply consent_run_app; [exact C | hush].
    + unfold bind, get_max_retries.
      destruct (attempt <? max_retries w1 - 1)%nat.
      * cbn [speak]. intros H. apply IH in H as (evs & T & C & Hn).
        eexists. split; [talk|]. split; [|count_listens].
        apply consent_run_app; [exact C | hush].
      * cbn [speak ret]. intros [= <- <-].
        eexists. split; [talk|]. split; [|count_listens].
        apply consent_unresolved. hush.
Qed.

Lemma consent_check_spec (text : string) :
  forall w b w',
    get_consent_check text w = (b, w') ->
    exists evs,
      talked w w' evs /\
      consent_run b (evs ++ [Listened (Some text)]) /\
      listens evs <= max_retries w.
Proof.
  intros w b w'. unfold get_consent_check.
  destruct (contains "yes" (lower text) || contains "yeah" (lower text)
            || contains "sure" (lower text)) eqn:Y.
  - apply affirmative_iff in Y. unfold ret. intros [= <- <-].
    exists []. split; [talk|]. split; [|count_listens].
    apply consent_yes; [exact Y | hush].
  - apply not_affirmative in Y.
    destruct (contains "no" (lower text) || contains "nope" (lower text)) eqn:N.
    + apply negative_iff in N. unfold bind, ret. cbn [speak].
      intros [= <- <-].
      eexists. split; [talk|]. split; [|count_listens].
      apply consent_no; [exact Y | exact N | hush].
    + apply not_negative in N. unfold bind, get_max_retries.
      intros H. apply consent_loop_spec in H as (evs & T & C & Hn).
      rewrite length_seq in Hn.
      exists evs. split; [exact T|]. split; [|exact Hn].
      apply consent_run_app; [exact C | hush].
Qed.

(** The consent step: it only talks, its verdict follows the shape of
    [consent_run], and its listens follow the two retry phases. *)
Lemma get_consent_spec :
  forall w b w',
    get_consent w = (b, w') ->
    exists evs,
      talked w w' evs /\ consent_run b evs /\
      listen_pattern (max_retries w) (b = false) (heard evs).
Proof.
  intros w b w'. unfold get_consent.
  unfold bind at 1 2. cbn [speak].
  destruct (listen _) as [[t1|] w1] eqn:L1; apply talked_listen in L1.
  { intros H. apply consent_check_spec in H as (evs & T & C & N).
    assert (M : max_retries w1 = max_retries w)
      by (eapply talked_max_retries; talk).
    eexists. split; [talk|]. split.
    - rewrite app_assoc. apply consent_run_app; [exact C | hush].
    - right. exists 0, t1, (heard evs).
      split; [lia|]. split; [|rewrite heard_length; lia].
      now rewrite heard_app. }
  unfold bind at 1 2. cbn [speak].
  destruct (listen _) as [[t2|] w2] eqn:L2; apply talked_listen in L2.
  { intros H. apply consent_check_spec in H as (evs & T & C & N).
    assert (M : max_retries w2 = max_retries w)
      by (eapply talked_max_retries; talk).
    eexists. split; [talk|]. split.
    - rewrite app_assoc. apply consent_run_app; [exact C | hush].
    - right. exists 1, t2, (heard evs).
      split; [lia|]. split; [|rewrite heard_length; lia].
      now rewrite !heard_app. }
  unfold bind at 1 2. cbn [speak].
  destruct (listen _) as [[t3|] w3] eqn:L3; apply talked_listen in L3.
  { intros H. apply consent_check_spec in H as (evs & T & C & N).
    assert (M : max_retries w3 = max_retries w)
      by (eapply talked_max_retries; talk).
    eexists. split; [talk|]. split.
    - rewrite app_assoc. apply consent_run_app; [exact C | hush].
    - right. exists 2, t3, (heard evs).
      split; [lia|]. split; [|rewrite heard_length; lia].
      now rewrite !heard_app. }
  unfold bind, ret. cbn [speak]. intros [= <- <-].
  eexists. split; [talk|]. split.
  - apply consent_unresolved. hush.
  - left. split; [reflexivity|]. now rewrite !heard_cons, !heard_app.
Qed.

Lemma In_captured (r : string) (evs : list Event) :
  In r (captured evs) <-> In (Listened (Some r)) evs.
Proof.
  unfold captured, heard, listen_results. rewrite in_flat_map. split.
  - intros [[t|] [Hin Hr]]; [|contradiction].
    destruct Hr as [->|[]]. apply in_rev, in_flat_map in Hin as [e [He Hx]].
    destruct e; try contradiction. destruct Hx as [->|[]]. exact He.
  - intros H. exists (Some r). split; [|now left].
    apply -> in_rev. apply in_flat_map. exists (Listened (Some r)).
    split; [exact H | now left].
Qed.

Lemma In_spoken (t : string) (evs : list Event) :
  In t (spoken evs) <-> In (Spoke t) evs.
Proof.
  unfold spoken. rewrite <- in_rev, in_flat_map. split.
  - intros [e [He Hx]]. destruct e; try contradiction.
    destruct Hx as [->|[]]. exact He.
  - intros H. exists (Spoke t). split; [exact H | now left].
Qed.

Lemma undecided_no_decline (evs : list Event) :
  Forall undecided evs -> ~ In (Spoke decline_msg) evs.
Proof.
  intros H Hin. rewrite Forall_forall in H. apply H in Hin.
  cbn in Hin. repeat destruct Hin as [Hin|Hin]; try discriminate; contradiction.
Qed.

Lemma undecided_captured (evs : list Event) (r : string) :
  Forall undecided evs -> In (Listened (Some r)) evs ->
  ~ affirmative r /\ ~ negative r.
Proof. intros H Hin. rewrite Forall_forall in H. exact (H _ Hin). Qed.

(** How the captured responses of a consent run decide its verdict. *)
Lemma consent_verdicts (b : bool) (evs : list Event) :
  consent_run b evs ->
  (forall r, In (Listened (Some r)) evs -> affirmative r ->
     b = true /\ ~ In (Spoke decline_msg) evs) /\
  (forall r, In (Listened (Some r)) evs -> ~ affirmative r -> negative r ->
     b = false /\
     exists old, evs = Spoke decline_msg :: Listened (Some r) :: old) /\
  ((forall r, In (Listened (Some r)) evs -> ~ affirmative r /\ ~ negative r) ->
     b = false /\ ~ In (Spoke decline_msg) evs).
Proof.
  intros H. destruct H as [r0 old A Q | r0 old A N Q | evs Q].
  - split; [|split].
    + intros r _ _. split; [reflexivity|].
      intros [Hd | Hd]; [discriminate|]. now apply undecided_no_decline in Hd.
    + intros r [[= ->] | Hin] Ha Hn; [contradiction|].
      destruct (undecided_captured _ _ Q Hin). contradiction.
    + intros Hall. destruct (Hall r0 (or_introl eq_refl)). contradiction.
  - split; [|split].
    + intros r [Hd | [[= ->] | Hin]] Ha; [discriminate | contradiction |].
      destruct (undecided_captured _ _ Q Hin). contradiction.
    + intros r [Hd | [[= ->] | Hin]] Ha Hn; [discriminate | eauto |].
      destruct (undecided_captured _ _ Q Hin). contradiction.
    + intros Hall.
      destruct (Hall r0 (or_intror (or_introl eq_refl))). contradiction.
  - split; [|split].
    + intros r Hin Ha. destruct (undecided_captured _ _ Q Hin). contradiction.
    + intros r Hin Ha Hn. destruct (undecided_captured _ _ Q Hin). contradiction.
    + intros _. split; [reflexivity|]. now apply undecided_no_decline.
Qed.

Lemma consent_events (w w' : World) (b : bool) (evs : list Event) :
  get_consent w = (b, w') -> trace w' = evs ++ trace w ->
  consent_run b evs /\ listen_pattern (max_retries w) (b = false) (heard evs).
Proof.
  intros Hrun Htr.
  apply get_consent_spec in Hrun as (evs0 & (T & _) & C & P).
  now rewrite (events_unique _ _ _ _ Htr T).
Qed.

Lemma said_app (m : string) (a b : list Event) :
  said m (a ++ b) = said m a + said m b.
Proof. unfold said. now rewrite filter_app, length_app. Qed.

Lemma said_cons (m : string) (e : Event) (evs : list Event) :
  said m (e :: evs) =
  (match e with Spoke t => if (t =? m)%string then 1 else 0 | _ => 0 end)
  + said m evs.
Proof. unfold said. destruct e; cbn; try reflexivity. now destruct (text =? m)%string. Qed.

Ltac count_retries :=
  repeat first [ rewrite said_cons | rewrite said_app
               | rewrite listens_cons | rewrite listens_app ];
  change (said consent_retry_msg []) with 0; change (listens []) with 0;
  unfold consent_retry_msg in *;
  cbn [Nat.add String.eqb Ascii.eqb Bool.eqb andb]; lia.

(** The retry loop with [n] attempts left: each listen is opened by the
    retry prompt, and when no keyword is captured all [n] listens are
    made. *)
Lemma consent_loop_exact (n : nat) :
  forall a w b w',
    a + n = max_retries w ->
    get_consent_loop (seq a n) w = (b, w') ->
    exists evs,
      talked w w' evs /\
      said consent_retry_msg evs = listens evs /\
      ((forall r, In (Listened (Some r)) evs ->
                  ~ affirmative r /\ ~ negative r) ->
       listens evs = n).
Proof.
  induction n as [|n IH]; intros a w b w' Hm; simpl.
  - unfold bind, speak, ret. intros [= <- <-].
    eexists. split; [talk|]. split; [count_retries|]. intros _. count_retries.
  - unfold bind at 1 2. cbn [speak].
    destruct (listen _) as [[text|] w1] eqn:L; apply talked_listen in L.
    + assert (M : max_retries w1 = max_retries w)
        by (eapply talked_max_retries; talk).
      destruct (contains "yes" (lower text) || contains "yeah" (lower text)
                || contains "sure" (lower text)) eqn:Y.
      * apply affirmative_iff in Y. unfold ret. intros [= <- <-].
        eexists. split; [talk|]. split; [count_retries|].
        intros H. destruct (H text) as [Ha _]; [cbn; auto | contradiction].
      * apply not_affirmative in Y.
        destruct (contains "no" (lower text) || contains "nope" (lower text)) eqn:N.
        -- apply negative_iff in N. unfold bind, ret. cbn [speak].
           intros [= <- <-].
           eexists. split; [talk|]. split; [count_retries|].
           intros H. destruct (H text) as [_ Hn]; [cbn; auto | contradiction].
        -- intros H. apply (IH (S a)) in H as (evs & T & Sd & X); [|lia].
           eexists. split; [talk|]. split; [count_retries|].
           intros H. rewrite listens_app, X; [cbn; lia|].
           intros r Hr. apply H, in_or_app. now left.
    + assert (M : max_retries w1 = max_retries w)
        by (eapply talked_max_retries; talk).
      unfold bind, get_max_retries.
      destruct (Nat.ltb_spec a (max_retries w1 - 1)) as [Hlt|Hge].
      * cbn [speak]. intros H.
        apply (IH (S a)) in H as (evs & T & Sd & X);
          [|cbn [max_retries log]; lia].
        eexists. split; [talk|]. split; [count_retries|].
        intros H. rewrite listens_app, X; [cbn; lia|].
        intros r Hr. apply H, in_or_app. now left.
      * cbn [speak ret]. intros [= <- <-].
        eexists. split; [talk|]. split; [count_retries|].
        intros _. cbn. lia.
Qed.

Lemma consent_check_exact (text : string) :
  forall w b w',
    get_consent_check text w = (b, w') ->
    exists evs,
      talked w w' evs /\
      said consent_retry_msg evs = listens evs /\
      (~ affirmative text -> ~ negative text ->
       (forall r, In (Listened (Some r)) evs ->
                  ~ affirmative r /\ ~ negative r) ->
       listens evs = max_retries w).
Proof.
  intros w b w'. unfold get_consent_check.
  destruct (contains "yes" (lower text) || contains "yeah" (lower text)
            || contains "sure" (lower text)) eqn:Y.
  - apply affirmative_iff in Y. unfold ret. intros [= <- <-].
    exists []. split; [talk|]. split; [reflexivity|]. contradiction.
  - destruct (contains "no" (lower text) || contains "nope" (lower text)) eqn:N.
    + apply negative_iff in N. unfold bind, ret. cbn [speak].
      intros [= <- <-].
      eexists. split; [talk|]. split; [count_retries|]. contradiction.
    + unfold bind, get_max_retries. intros H.
      apply (consent_loop_exact _ 0) in H as (evs & T & Sd & X); [|reflexivity].
      exists evs. split; [exact T|]. split; [exact Sd|]. auto.
Qed.

Lemma heard_repeat_none (evs : list Event) (k : nat) (t : string) (pre : list Event) :
  heard pre = repeat None k ->
  heard (evs ++ Listened (Some t) :: pre) = repeat None k ++ Some t :: heard evs.
Proof.
  intros H. rewrite heard_app, heard_cons, H, <- app_assoc. reflexivity.
Qed.

(** The consent step as a whole: see [consent_retries]. *)
Lemma get_consent_exact :
  forall w b w',
    get_consent w = (b, w') ->
    exists evs,
      talked w w' evs /\
      ((heard evs = [None; None; None] /\ said consent_retry_msg evs = 0) \/
       exists k t later,
         k <= 2 /\ heard evs = repeat None k ++ Some t :: later /\
         said consent_retry_msg evs = List.length later /\
         ((forall r, In (Listened (Some r)) evs ->
                     ~ affirmative r /\ ~ negative r) ->
          List.length later = max_retries w)).
Proof.
  intros w b w'. unfold get_consent.
  unfold bind at 1 2. cbn [speak].
  destruct (listen _) as [[t1|] w1] eqn:L1; apply talked_listen in L1.
  { intros H. apply consent_check_exact in H as (evs & T & Sd & X).
    assert (M : max_retries w1 = max_retries w)
      by (eapply talked_max_retries; talk).
    eexists. split; [talk|].
    right. exists 0, t1, (heard evs). split; [lia|].
    split; [now rewrite heard_app|].
    rewrite heard_length. split; [count_retries|].
    intros H. rewrite <- M.
    destruct (H t1) as [Ha Hn]; [apply in_or_app; right; cbn; auto|].
    apply X; auto. intros r Hr. apply H, in_or_app. now left. }
  unfold bind at 1 2. cbn [speak].
  destruct (listen _) as [[t2|] w2] eqn:L2; apply talked_listen in L2.
  { intros H. apply consent_check_exact in H as (evs & T & Sd & X).
    assert (M : max_retries w2 = max_retries w)
      by (eapply talked_max_retries; talk).
    eexists. split; [talk|].
    right. exists 1, t2, (heard evs). split; [lia|].
    split; [now rewrite !heard_app|].
    rewrite heard_length. split; [count_retries|].
    intros H. rewrite <- M.
    destruct (H t2) as [Ha Hn]; [apply in_or_app; right; cbn; auto|].
    apply X; auto. intros r Hr. apply H, in_or_app. now left. }
  unfold bind at 1 2. cbn [speak].
  destruct (listen _) as [[t3|] w3] eqn:L3; apply talked_listen in L3.
  { intros H. apply consent_check_exact in H as (evs & T & Sd & X).
    assert (M : max_retries w3 = max_retries w)
      by (eapply talked_max_retries; talk).
    eexists. split; [talk|].
    right. exists 2, t3, (heard evs). split; [lia|].
    split; [now rewrite !heard_app|].
    rewrite heard_length. split; [count_retries|].
    intros H. rewrite <- M.
    destruct (H t3) as [Ha Hn]; [apply in_or_app; right; cbn; auto|].
    apply X; auto. intros r Hr. apply H, in_or_app. now left. }
  unfold bind, ret. cbn [speak]. intros [= <- <-].
  eexists. split; [talk|]. left.
  split; [now rewrite !heard_cons, !heard_app | count_retries].
Qed.

Lemma consent_retries_hold (w w' : World) (b : bool) (evs : list Event) :
  get_consent w = (b, w') -> trace w' = evs ++ trace w ->
  consent_retries (max_retries w) evs.
Proof.
  intros Hrun Htr.
  apply get_consent_exact in Hrun as (evs0 & (T & _) & R).
  rewrite (events_unique _ _ _ _ Htr T).
  destruct R as [R | (k & t & later & Hk & Hh & Hs & Hx)]; [now left|].
  right. exists k, t, later. repeat split; auto.
  intros H. apply Hx. intros r Hr. apply H, In_captured, Hr.
Qed.

(** C7, as amended. A captured consent response with "yes", "yeah" or
    "sure" in its lower-cased text makes the step return true; one with
    "no" or "nope" and none of the affirmative keywords makes it speak the
    decline acknowledgment last and return false; when no captured
    response has a keyword the step returns false. A response without a
    keyword uses up a retry: after the first capture every further listen
    is opened by the retry prompt, there are at most [max_retries] of
    them, and a run in which no captured response has a keyword makes
    exactly [max_retries] of them before it returns false. *)
Theorem consent_classification :
  forall (w w' : World) (b : bool) (evs : list Event),
    get_consent w = (b, w') ->
    trace w' = evs ++ trace w ->
    (forall r, In r (captured evs) -> affirmative r -> b = true) /\
    (forall r, In r (captured evs) -> negative r -> ~ affirmative r ->
       b = false /\ In decline_msg (spoken evs) /\
       exists old, evs = Spoke decline_msg :: Listened (Some r) :: old) /\
    ((forall r, In r (captured evs) -> ~ affirmative r /\ ~ negative r) ->
       b = false) /\
    listen_pattern (max_retries w) (b = false) (heard evs) /\
    consent_retries (max_retries w) evs.
Proof.
  intros w w' b evs Hrun Htr.
  pose proof (consent_retries_hold _ _ _ _ Hrun Htr) as Hretries.
  destruct (consent_events _ _ _ _ Hrun Htr) as [C P].
  destruct (consent_verdicts _ _ C) as (Vy & Vn & Vu).
  split; [|split; [|split; [|split]]].
  - intros r Hin Ha. apply In_captured in Hin. now apply (Vy r).
  - intros r Hin Hn Ha. apply In_captured in Hin.
    destruct (Vn r Hin Ha Hn) as [Hb [old ->]].
    split; [exact Hb|]. split; [|eauto].
    apply In_spoken. now left.
  - intros Hall. apply Vu. intros r Hin. apply Hall, In_captured, Hin.
  - exact P.
  - exact Hretries.
Qed.

Lemma consent_classification_witness :
  let w := init [Some "maybe"; Some "No thanks"] sample_now true [] in
  let res := get_consent w in
  let w3 :=
    init [Some "maybe"; Some "perhaps"; Some "hmm"; Some "yes"]
      sample_now true [] in
  let res3 := get_consent w3 in
  (fst res = false /\
   captured (trace (snd res)) = ["maybe"; "No thanks"] /\
   In decline_msg (spoken (trace (snd res)))) /\
  (fst res3 = false /\
   heard (trace (snd res3)) = [Some "maybe"; Some "perhaps"; Some "hmm"] /\
   consent_retries 2 (trace (snd res3))).
Proof.
  cbv zeta. split.
  - split; [reflexivity|]. split; [reflexivity|].
    set (w := init [Some "maybe"; Some "No thanks"] sample_now true []).
    set (res := get_consent w).
    refine (proj1 (proj2 (proj1 (proj2
              (consent_classification w (snd res) (fst res) (trace (snd res)) _ _))
              "No thanks" _ _ _))).
    + reflexivity.
    + reflexivity.
    + right. left. reflexivity.
    + left. exists EmptyString, " thanks". reflexivity.
    + apply not_affirmative. reflexivity.
  - split; [reflexivity|]. split; [reflexivity|].
    set (w3 := init [Some "maybe"; Some "perhaps"; Some "hmm"; Some "yes"]
                 sample_now true []).
    set (res3 := get_consent w3).
    exact (proj2 (proj2 (proj2 (proj2
             (consent_classification w3 (snd res3) (fst res3)
                (trace (snd res3)) eq_refl eq_refl))))).
Defined.

(** The claim C7 as it is worded fails: a response may contain "no" and
    still be taken as consent. *)
Lemma consent_no_keyword_counterexample :
  ~ (forall (w w' : World) (b : bool) (evs : list Event) (r : string),
        get_consent w = (b, w') ->
        trace w' = evs ++ trace w ->
        In r (captured evs) ->
        Substring "no" (lower r) ->
        b = false /\ In decline_msg (spoken evs)).
Proof.
  intros H.
  set (w := init [Some "yes, not a problem"] sample_now true []).
  destruct (H w (snd (get_consent w)) (fst (get_consent w))
              (trace (snd (get_consent w))) "yes, not a problem"
              eq_refl eq_refl (or_introl eq_refl)) as [Hb _].
  - exists "yes, ", "t a problem". reflexivity.
  - discriminate Hb.
Qed.

(** C10. A captured consent response with both an affirmative and a
    negative keyword in its lower-cased text makes the step return true,
    and the decline acknowledgment is not spoken. *)
Theorem affirmative_takes_priority :
  forall (w w' : World) (b : bool) (evs : list Event) (r : string),
    get_consent w = (b, w') ->
    trace w' = evs ++ trace w ->
    In r (captured evs) ->
    affirmative r -> negative r ->
    b = true /\ ~ In decline_msg (spoken evs).
Proof.
  intros w w' b evs r Hrun Htr Hin Ha Hn.
  destruct (consent_events _ _ _ _ Hrun Htr) as [C _].
  destruct (consent_verdicts _ _ C) as (Vy & _ & _).
  apply In_captured in Hin. destruct (Vy r Hin Ha) as [Hb Hd].
  split; [exact Hb|]. intros Hs. now apply In_spoken in Hs.
Qed.

Lemma affirmative_takes_priority_witness :
  let w := init [Some "Yes, not a problem"] sample_now true [] in
  let res := get_consent w in
  captured (trace (snd res)) = ["Yes, not a problem"] /\
  fst res = true /\ ~ In decline_msg (spoken (trace (snd res))).
Proof.
  cbv zeta. split; [reflexivity|].
  set (w := init [Some "Yes, not a problem"] sample_now true []).
  set (res := get_consent w).
  refine (affirmative_takes_priority w (snd res) (fst res) (trace (snd res))
            "Yes, not a problem" _ _ _ _ _).
  - reflexivity.
  - reflexivity.
  - left. reflexivity.
  - left. exists EmptyString, ", not a problem". reflexivity.
  - left. exists "yes, ", "t a problem". reflexivity.
Defined.

End ConsentProps.

Module SessionProps.

Import PyStr KYCVoiceBot Spec PyStrFacts ValidationProps PanProps CollectorProps ConsentProps.

Lemma if_truthy_some (r : option string) (n : string) :
  if_truthy r = Some n -> r = Some n.
Proof.
  destruct r as [s|]; simpl; [|discriminate].
  destruct (truthy s); congruence.
Qed.

Ltac fields H :=
  let Tt := fresh "Tt" in let Tk := fresh "Tk" in let Tm := fresh "Tm" in
  let Tc := fresh "Tc" in let Td := fresh "Td" in let Tf := fresh "Tf" in
  destruct H as (Tt & Tk & Tm & Tc & Td & Tf);
  cbn [trace kyc_data max_retries clock disk fs log with_kyc_data]
    in Tt, Tk, Tm, Tc, Td, Tf.

Ltac trace_eq :=
  unfold upto_consent, upto_pan, upto_phone, upto_name, summary;
  cbn [app]; repeat (rewrite <- app_assoc; cbn [app]); reflexivity.

Ltac evolve :=
  unfold evolved;
  cbn [trace kyc_data max_retries clock disk fs log with_kyc_data];
  repeat split; try congruence.

Lemma run_kyc_session_spec :
  forall w ok w',
    run_kyc_session w = (ok, w') ->
    exists evs,
      evolved w w' evs /\
      session_run (kyc_data w) (clock w) ok evs (kyc_data w').
Proof.
  intros w ok w'. unfold run_kyc_session.
  unfold bind at 1 2. cbn [speak].
  destruct (get_input_with_retry _ _ _ _ _) as [r1 w1] eqn:E1.
  apply get_input_with_retry_spec in E1 as (e1 & T1 & C1 & A1 & _).
  fields T1.
  destruct (if_truthy r1) as [n|] eqn:I1.
  2:{ unfold bind, ret. cbn [speak]. intros [= <- <-].
      exists (Spoke unable_name :: e1 ++ [Spoke welcome_msg]). split.
      - evolve. rewrite Tt. trace_eq.
      - cbn [kyc_data log]. rewrite Tk. now apply run_no_name. }
  apply if_truthy_some in I1. subst r1.
  destruct (A1 n eq_refl) as [V1 _].
  unfold bind at 1 2 3. cbn [assign].
  set (d1 := set_item K_name (VText n) (kyc_data w1)).
  destruct (get_input_with_retry _ _ _ _ _) as [r2 w2] eqn:E2.
  apply get_input_with_retry_spec in E2 as (e2 & T2 & C2 & A2 & _).
  fields T2.
  assert (D1 : d1 = set_item K_name (VText n) (kyc_data w))
    by (unfold d1; now rewrite Tk).
  destruct (if_truthy r2) as [p|] eqn:I2.
  2:{ unfold bind, ret. cbn [speak]. intros [= <- <-].
      exists (Spoke unable_phone :: e2 ++ upto_name e1 d1). split.
      - evolve. rewrite Tt0, Tt. trace_eq.
      - cbn [kyc_data log]. rewrite Tk0. now apply run_no_phone with (n := n). }
  apply if_truthy_some in I2. subst r2.
  destruct (A2 p eq_refl) as [V2 [t2 X2]]. cbn [apply_extract] in X2.
  assert (P2 : ten_digits p)
    by (subst p; now apply validate_phone_extracted).
  unfold bind at 1 2 3. cbn [assign].
  set (d2 := set_item K_phone (VText p) (kyc_data w2)).
  destruct (get_input_with_retry _ _ _ _ _) as [r3 w3] eqn:E3.
  apply get_input_with_retry_spec in E3 as (e3 & T3 & C3 & A3 & _).
  fields T3.
  assert (D2 : d2 = set_item K_phone (VText p) d1)
    by (unfold d2; now rewrite Tk0).
  destruct (if_truthy r3) as [i|] eqn:I3.
  2:{ unfold bind, ret. cbn [speak]. intros [= <- <-].
      exists (Spoke unable_pan :: e3 ++ upto_phone e1 e2 d1 d2). split.
      - evolve. rewrite Tt1, Tt0, Tt. trace_eq.
      - cbn [kyc_data log]. rewrite Tk1.
        now apply run_no_pan with (n := n) (p := p). }
  apply if_truthy_some in I3. subst r3.
  destruct (A3 i eq_refl) as [V3 [t3 X3]]. cbn [apply_extract] in X3.
  assert (P3 : pan_pattern i)
    by (subst i; now apply validate_pan_extracted).
  unfold bind at 1 2 3. cbn [assign].
  set (d3 := set_item K_pan (VText i) (kyc_data w3)).
  destruct (get_consent _) as [b w4] eqn:E4.
  apply get_consent_spec in E4 as (e4 & T4 & C4 & _).
  fields T4.
  assert (D3 : d3 = set_item K_pan (VText i) d2)
    by (unfold d3; now rewrite Tk1).
  unfold bind at 1. cbn [assign].
  set (d4 := set_item K_consent (VBool b) (kyc_data w4)).
  assert (D4 : d4 = set_item K_consent (VBool b) d3)
    by (unfold d4; now rewrite Tk2).
  destruct b; cbn [negb].
  2:{ unfold ret. intros [= <- <-].
      exists (upto_consent e1 e2 e3 e4 d1 d2 d3 d4). split.
      - evolve. rewrite Tt2, Tt1, Tt0, Tt. trace_eq.
      - cbn [kyc_data log with_kyc_data].
        now apply run_no_consent with (n := n) (p := p) (i := i). }
  unfold bind, ret, get_kyc_data, datetime_now. cbn [speak assign].
  cbn [trace kyc_data max_retries clock disk fs log with_kyc_data].
  intros [= <- <-].
  set (d5 := set_item K_timestamp (VText (DateTime.isoformat (clock w4))) d4).
  exists (Spoke complete_msg :: Assigned K_timestamp d5 ::
          summary d4 ++ upto_consent e1 e2 e3 e4 d1 d2 d3 d4). split.
  - evolve. rewrite Tt2, Tt1, Tt0, Tt. trace_eq.
  - cbn [kyc_data log with_kyc_data].
    apply run_complete with (n := n) (p := p) (i := i); auto.
    change (d5 = set_item K_timestamp (VText (DateTime.isoformat (clock w))) d4).
    unfold d5. now rewrite Tc2, Tc1, Tc0, Tc.
Qed.

(** *** Reading the trace of a session *)

Lemma assignments_app (a b : list Event) :
  assignments (a ++ b) = assignments b ++ assignments a.
Proof. unfold assignments. now rewrite flat_map_app, rev_app_distr. Qed.

Lemma assignments_cons (e : Event) (evs : list Event) :
  assignments (e :: evs) =
  assignments evs ++ match e with Assigned k d => [(k, d)] | _ => [] end.
Proof. unfold assignments. destruct e; cbn; now rewrite ?app_nil_r. Qed.

Lemma dumps_app (a b : list Event) : dumps (a ++ b) = dumps b ++ dumps a.
Proof. unfold dumps. now rewrite flat_map_app, rev_app_distr. Qed.

Lemma dumps_cons (e : Event) (evs : list Event) :
  dumps (e :: evs) =
  dumps evs ++ match e with Dumped f d ok => [(f, d, ok)] | _ => [] end.
Proof. unfold dumps. destruct e; cbn; now rewrite ?app_nil_r. Qed.

(** A conversation assigns nothing and writes nothing. *)
Lemma chat_quiet (msgs : list string) (evs : list Event) :
  chat msgs evs -> assignments evs = [] /\ dumps evs = [].
Proof.
  induction 1 as [|e evs He _ [IHa IHd]]; [split; reflexivity|].
  rewrite assignments_cons, dumps_cons, IHa, IHd.
  destruct e; cbn in He; try contradiction; split; reflexivity.
Qed.

Lemma undecided_quiet (evs : list Event) :
  Forall undecided evs -> assignments evs = [] /\ dumps evs = [].
Proof.
  induction 1 as [|e evs He _ [IHa IHd]]; [split; reflexivity|].
  rewrite assignments_cons, dumps_cons, IHa, IHd.
  destruct e; cbn in He; try contradiction; split; reflexivity.
Qed.

Lemma consent_quiet (b : bool) (evs : list Event) :
  consent_run b evs -> assignments evs = [] /\ dumps evs = [].
Proof.
  intros [r old _ Q | r old _ _ Q | e Q];
    rewrite ?assignments_cons, ?dumps_cons;
    destruct (undecided_quiet _ Q) as [-> ->]; split; reflexivity.
Qed.

(** Rewrites the assignments and the writes of a session trace into the
    explicit list. *)
Ltac read_trace :=
  unfold upto_consent, upto_pan, upto_phone, upto_name, summary;
  repeat first [ rewrite assignments_cons | rewrite assignments_app
               | rewrite dumps_cons | rewrite dumps_app ];
  repeat match goal with
         | H : chat _ ?e |- _ =>
             let Ha := fresh in let Hd := fresh in
             destruct (chat_quiet _ _ H) as [Ha Hd]; rewrite ?Ha, ?Hd;
             clear Ha Hd; revert H
         | H : consent_run _ ?e |- _ =>
             let Ha := fresh in let Hd := fresh in
             destruct (consent_quiet _ _ H) as [Ha Hd]; rewrite ?Ha, ?Hd;
             clear Ha Hd; revert H
         end;
  intros;
  change (assignments []) with (@nil (Key * KycData));
  change (dumps []) with (@nil (string * KycData * bool));
  cbn [app].

Lemma session_timestamp_writes d0 now ok evs d :
  session_run d0 now ok evs d ->
  timestamp_writes evs = (if ok then 1 else 0) /\ dumps evs = [].
Proof.
  intros H. unfold timestamp_writes. destruct H; read_trace; split; reflexivity.
Qed.

(** The record of a session: the order of the assignments and the rule
    every value of the record obeys. *)
Lemma session_record d0 now ok evs d :
  session_run d0 now ok evs d -> record_ok d0 ->
  (exists n, List.map fst (assignments evs) = firstn n field_order) /\
  Forall record_ok (snapshots d0 evs) /\
  last (snapshots d0 evs) d0 = d.
Proof.
  intros H (R1 & R2 & R3). unfold snapshots.
  destruct H; read_trace; subst; cbn [List.map fst snd];
    (split; [|split; [|reflexivity]]);
    try (repeat first [apply Forall_cons | apply Forall_nil];
         unfold record_ok; cbn; auto).
  - exists 0; reflexivity.
  - exists 1; reflexivity.
  - exists 2; reflexivity.
  - exists 4; reflexivity.
  - exists 5; reflexivity.
Qed.

Lemma session_failure_timestamp d0 now evs d :
  session_run d0 now false evs d -> timestamp d = timestamp d0.
Proof.
  intros H. remember false as ok eqn:Hok.
  destruct H; try discriminate; subst; reflexivity.
Qed.

Lemma session_success_timestamp d0 now evs d :
  session_run d0 now true evs d -> timestamp d = DateTime.isoformat now.
Proof.
  intros H. remember true as ok eqn:Hok.
  destruct H; try discriminate; subst; reflexivity.
Qed.

Lemma chat_utterance (msgs : list string) (evs : list Event) (t : string) :
  chat msgs evs -> In (Spoke t) evs -> In t msgs.
Proof. intros H Hin. unfold chat in H. rewrite Forall_forall in H. exact (H _ Hin). Qed.

Lemma consent_utterance (b : bool) (evs : list Event) (t : string) :
  consent_run b evs -> In (Spoke t) evs -> t = decline_msg \/ In t consent_msgs.
Proof.
  intros [r old _ Q | r old _ _ Q | e Q] Hin; rewrite Forall_forall in Q.
  - destruct Hin as [Hin|Hin]; [discriminate|]. right. exact (Q _ Hin).
  - destruct Hin as [[= <-]|[Hin|Hin]]; [now left | discriminate |].
    right. exact (Q _ Hin).
  - right. exact (Q _ Hin).
Qed.

(** What is said in a session that does not complete. *)
Lemma failure_utterances d0 now evs d (t : string) :
  session_run d0 now false evs d -> In (Spoke t) evs -> In t failure_msgs.
Proof.
  intros H Hin. remember false as ok eqn:Hok.
  unfold failure_msgs.
  destruct H; try discriminate;
    unfold upto_consent, upto_pan, upto_phone, upto_name in Hin;
    repeat first [ rewrite in_app_iff in Hin | cbn [In] in Hin ];
    repeat match goal with
           | H : _ \/ _ |- _ => destruct H
           | H : False |- _ => destruct H
           | H : Spoke _ = Spoke _ |- _ => injection H as <-
           | H : Assigned _ _ = Spoke _ |- _ => discriminate H
           | H : chat _ ?e, H' : In (Spoke _) ?e |- _ =>
               apply (chat_utterance _ _ _ H) in H'
           | H : consent_run _ ?e, H' : In (Spoke _) ?e |- _ =>
               apply (consent_utterance _ _ _ H) in H'
           end;
    subst; cbn [In]; rewrite ?in_app_iff; tauto.
Qed.

Lemma failure_msgs_not_summary :
  List.forallb (fun t => negb (summary_like t)) failure_msgs = true.
Proof. reflexivity. Qed.

Lemma isoformat_nonempty (now : DateTime.t) :
  DateTime.isoformat now <> EmptyString.
Proof.
  unfold DateTime.isoformat. intros H.
  apply (f_equal String.length) in H.
  rewrite string_length_app in H. cbn in H. lia.
Qed.

Lemma main_failure inputs now ok files :
  fst (run_kyc_session (init inputs now ok files)) = false ->
  main inputs now ok files = snd (run_kyc_session (init inputs now ok files)).
Proof.
  unfold main, bind.
  destruct (run_kyc_session _) as [success w']. cbn. now intros ->.
Qed.

(** *** The claims about whole sessions *)

(** C1. When the four captures "John Smith", "9876543210", "abcde1234f"
    and "yes" each succeed on the first attempt, the session completes
    with the record John Smith / 9876543210 / ABCDE1234F / consent given
    and a timestamp that is set, and (the write succeeding) the file holds
    that record. *)
Theorem end_to_end_success :
  forall (rest : list (option string)) (now : DateTime.t)
         (files : list (string * KycData)),
    let inputs :=
      Some "John Smith" :: Some "9876543210" :: Some "abcde1234f" ::
      Some "yes" :: rest in
    let record :=
      mkKyc "John Smith" "9876543210" "ABCDE1234F" true (DateTime.isoformat now) in
    let res := run_kyc_session (init inputs now true files) in
    let final := main inputs now true files in
    fst res = true /\
    kyc_data (snd res) = record /\
    timestamp record <> EmptyString /\
    heard (trace (snd res)) =
      [Some "John Smith"; Some "9876543210"; Some "abcde1234f"; Some "yes"] /\
    kyc_data final = record /\
    dumps (trace final) = [("kyc_session.json", record, true)] /\
    read_file "kyc_session.json" (fs final) = Some record.
Proof.
  intros rest now files. cbv zeta.
  repeat split; try reflexivity.
  cbn [timestamp]. apply isoformat_nonempty.
Qed.

(** C3. The timestamp is assigned once in a session that completes and
    never in one that does not; a session that does not complete leaves
    the timestamp empty, speaks nothing of the summary and writes no file.
    In particular, with consent answered "no" the record has the three
    fields, consent false, an empty timestamp, and nothing is written. *)
Theorem timestamp_only_on_success :
  (forall (inputs : list (option string)) (now : DateTime.t) (ok : bool)
          (files : list (string * KycData)),
      let res := run_kyc_session (init inputs now ok files) in
      let final := main inputs now ok files in
      timestamp_writes (trace (snd res)) = (if fst res then 1 else 0) /\
      (fst res = true ->
         timestamp (kyc_data (snd res)) = DateTime.isoformat now) /\
      (fst res = false ->
         timestamp (kyc_data (snd res)) = EmptyString /\
         (forall t, In t (spoken (trace (snd res))) -> summary_like t = false) /\
         final = snd res /\
         dumps (trace final) = [] /\ fs final = files)) /\
  (forall (rest : list (option string)) (now : DateTime.t) (ok : bool)
          (files : list (string * KycData)),
      let inputs :=
        Some "John Smith" :: Some "9876543210" :: Some "abcde1234f" ::
        Some "no" :: rest in
      let final := main inputs now ok files in
      fst (run_kyc_session (init inputs now ok files)) = false /\
      kyc_data final =
        mkKyc "John Smith" "9876543210" "ABCDE1234F" false EmptyString /\
      pending final = rest /\
      dumps (trace final) = [] /\ fs final = files).
Proof.
  split.
  - intros inputs now ok files. cbv zeta.
    pose proof (main_failure inputs now ok files) as Hmain.
    destruct (run_kyc_session (init inputs now ok files)) as [success w'] eqn:E.
    apply run_kyc_session_spec in E as (evs & (Tt & _ & _ & _ & Tf) & R).
    cbn [trace kyc_data clock fs init] in Tt, Tf, R. rewrite app_nil_r in Tt.
    cbn [fst snd] in *. rewrite Tt.
    destruct (session_timestamp_writes _ _ _ _ _ R) as [W D].
    split; [exact W|]. split.
    + intros ->. apply (session_success_timestamp _ _ _ _ R).
    + intros ->. rewrite (Hmain eq_refl), Tt.
      split; [apply (session_failure_timestamp _ _ _ _ R)|].
      split; [|repeat split; assumption].
      intros t Ht. apply In_spoken in Ht.
      apply (failure_utterances _ _ _ _ _ R) in Ht.
      pose proof failure_msgs_not_summary as F.
      rewrite List.forallb_forall in F. apply F in Ht.
      now apply negb_true_iff in Ht.
  - intros rest now ok files. cbv zeta. repeat split; reflexivity.
Qed.

(** C9. In a run of the session the record starts empty, the fields are
    assigned in the order name, phone, identifier, consent (then the
    timestamp), none of them twice, and every value the record takes has
    each text field empty or passing its rule. *)
Theorem record_invariant :
  forall (inputs : list (option string)) (now : DateTime.t) (ok : bool)
         (files : list (string * KycData)),
    let w := init inputs now ok files in
    let res := run_kyc_session w in
    let keys := List.map fst (assignments (trace (snd res))) in
    kyc_data w = mkKyc EmptyString EmptyString EmptyString false EmptyString /\
    (exists n, keys = firstn n field_order) /\
    NoDup keys /\
    Forall record_ok (snapshots (kyc_data w) (trace (snd res))) /\
    last (snapshots (kyc_data w) (trace (snd res))) (kyc_data w)
      = kyc_data (snd res).
Proof.
  intros inputs now ok files. cbv zeta.
  split; [reflexivity|].
  destruct (run_kyc_session (init inputs now ok files)) as [success w'] eqn:E.
  apply run_kyc_session_spec in E as (evs & (Tt & _) & R).
  cbn [trace kyc_data clock init] in Tt, R. rewrite app_nil_r in Tt.
  cbn [fst snd kyc_data init]. rewrite Tt.
  assert (R0 : record_ok empty_record) by (repeat split; left; reflexivity).
  destruct (session_record _ _ _ _ _ R R0) as ([n Hn] & Hs & Hl).
  split; [eauto|]. split; [|split; assumption].
  rewrite Hn.
  destruct n as [|[|[|[|[|n]]]]]; cbn [firstn field_order];
    rewrite ?firstn_nil;
    repeat (apply NoDup_cons; [cbn [In]; intuition discriminate|]);
    apply NoDup_nil.
Qed.

Lemma validate_name_truthy (n : string) :
  validate_name n = true -> truthy n = true.
Proof. unfold validate_name. destruct (truthy n); [reflexivity | discriminate]. Qed.

Lemma validate_phone_truthy (p : string) :
  validate_phone p = true -> truthy p = true.
Proof. destruct p; [discriminate | reflexivity]. Qed.

(** C2. Whichever of the three fields is being collected, three absences
    in a row make its collector return absent and the session abort at
    once: the record keeps the fields collected before, the field and the
    later ones stay empty, and no further listen is made. *)
Theorem three_absences_abort :
  (forall prompt validation_func extract_func field_name w rest,
      pending w = None :: None :: None :: rest ->
      fst (get_input_with_retry prompt validation_func extract_func
             field_name w) = None) /\
  (forall rest now ok files,
      let w := init (None :: None :: None :: rest) now ok files in
      exists w',
        run_kyc_session w = (false, w') /\
        kyc_data w' = empty_record /\
        pending w' = rest /\
        trace w' =
          Spoke unable_name :: gave_up name_prompt "name" ++ [Spoke welcome_msg]) /\
  (forall inputs now ok files n w1 rest,
      let w := init inputs now ok files in
      (speak welcome_msg ;; ask_name) w = (Some n, w1) ->
      pending w1 = None :: None :: None :: rest ->
      exists w',
        run_kyc_session w = (false, w') /\
        kyc_data w' = mkKyc n EmptyString EmptyString false EmptyString /\
        pending w' = rest /\
        trace w' =
          Spoke unable_phone :: gave_up phone_prompt "phone number" ++
          Assigned K_name (kyc_data w') :: trace w1) /\
  (forall inputs now ok files n w1 p w2 rest,
      let w := init inputs now ok files in
      (speak welcome_msg ;; ask_name) w = (Some n, w1) ->
      (assign K_name (VText n) ;; ask_phone) w1 = (Some p, w2) ->
      pending w2 = None :: None :: None :: rest ->
      exists w',
        run_kyc_session w = (false, w') /\
        kyc_data w' = mkKyc n p EmptyString false EmptyString /\
        pending w' = rest /\
        trace w' =
          Spoke unable_pan :: gave_up pan_prompt "PAN" ++
          Assigned K_phone (kyc_data w') :: trace w2).
Proof.
  split; [|split; [|split]].
  - intros prompt v e f w rest H.
    destruct (get_input_with_retry_silent prompt v e f w rest H) as (w' & -> & _).
    reflexivity.
  - intros rest now ok files. cbv zeta. eexists.
    split; [reflexivity|]. repeat split.
  - intros inputs now ok files n w1 rest. cbv zeta. intros H1 Hp.
    unfold run_kyc_session. unfold bind at 1 2.
    unfold bind, ask_name, name_prompt, welcome_msg in H1.
    cbn [speak] in H1 |- *. rewrite H1.
    apply get_input_with_retry_spec in H1 as (e1 & T1 & _ & A1 & _).
    fields T1. destruct (A1 n eq_refl) as [V1 _].
    cbn [if_truthy]. rewrite (validate_name_truthy _ V1).
    unfold bind at 1 2 3. cbn [assign].
    match goal with |- context [get_input_with_retry ?a ?b ?c ?d ?st] =>
      destruct (get_input_with_retry_silent a b c d st rest Hp)
        as (w' & -> & Hp' & T2)
    end.
    fields T2. cbn [if_truthy]. unfold bind, ret. cbn [speak].
    eexists. split; [reflexivity|].
    cbn [trace kyc_data pending log with_kyc_data].
    rewrite Tk0, Tt0, Tk. repeat split. exact Hp'.
  - intros inputs now ok files n w1 p w2 rest. cbv zeta. intros H1 H2 Hp.
    unfold run_kyc_session. unfold bind at 1 2.
    unfold bind, ask_name, name_prompt, welcome_msg in H1.
    cbn [speak] in H1 |- *. rewrite H1.
    apply get_input_with_retry_spec in H1 as (e1 & T1 & _ & A1 & _).
    fields T1. destruct (A1 n eq_refl) as [V1 _].
    cbn [if_truthy]. rewrite (validate_name_truthy _ V1).
    unfold bind at 1 2 3. cbn [assign].
    unfold bind, ask_phone, phone_prompt in H2. cbn [assign] in H2.
    rewrite H2.
    apply get_input_with_retry_spec in H2 as (e2 & T2 & _ & A2 & _).
    fields T2. destruct (A2 p eq_refl) as [V2 _].
    cbn [if_truthy]. rewrite (validate_phone_truthy _ V2).
    unfold bind at 1 2 3. cbn [assign].
    match goal with |- context [get_input_with_retry ?a ?b ?c ?d ?st] =>
      destruct (get_input_with_retry_silent a b c d st rest Hp)
        as (w' & -> & Hp' & T3)
    end.
    fields T3. cbn [if_truthy]. unfold bind, ret. cbn [speak].
    eexists. split; [reflexivity|].
    cbn [trace kyc_data pending log with_kyc_data].
    rewrite Tk1, Tt1, Tk0, Tk. repeat split. exact Hp'.
Qed.

Lemma three_absences_abort_witness :
  let inputs :=
    [Some "John Smith"; Some "9876543210"; None; None; None; Some "ABCDE1234F"] in
  exists w',
    run_kyc_session (init inputs sample_now true []) = (false, w') /\
    kyc_data w' = mkKyc "John Smith" "9876543210" EmptyString false EmptyString /\
    pending w' = [Some "ABCDE1234F"].
Proof.
  cbv zeta.
  set (inputs :=
    [Some "John Smith"; Some "9876543210"; None; None; None; Some "ABCDE1234F"]).
  set (w := init inputs sample_now true []).
  set (w1 := snd ((speak welcome_msg ;; ask_name) w)).
  set (w2 := snd ((assign K_name (VText "John Smith") ;; ask_phone) w1)).
  destruct (proj2 (proj2 (proj2 three_absences_abort))
              inputs sample_now true [] "John Smith" w1 "9876543210" w2
              [Some "ABCDE1234F"] eq_refl eq_refl eq_refl)
    as (w' & E & K & P & _).
  exists w'. repeat split; assumption.
Defined.

End SessionProps.

(* ================================================================= *)
(** ** Further properties of the string handling *)

Module NormalForms.

Import PyStr KYCVoiceBot Spec PyStrFacts ValidationProps PanProps.

Lemma lstrip_fixed (s : string) :
  (forall c t, s = String c t -> is_space c = false) -> lstrip s = s.
Proof.
  destruct s as [|c t]; [reflexivity|]. intros H. cbn.
  now rewrite (H c t eq_refl).
Qed.

Lemma rstrip_fixed (s : string) :
  (forall p c, s = (p ++ String c EmptyString)%string -> is_space c = false) ->
  rstrip s = s.
Proof.
  induction s as [|a s IH]; [reflexivity|]. intros H. cbn [rstrip].
  rewrite IH.
  - destruct s as [|b s]; [|reflexivity].
    now rewrite (H EmptyString a eq_refl).
  - intros p c ->. apply (H (String a p) c). reflexivity.
Qed.

Lemma strip_idem (s : string) : strip (strip s) = strip s.
Proof.
  destruct (strip_spec s) as (l & r & _ & _ & _ & Hh & Ht).
  unfold strip at 1. rewrite lstrip_fixed by exact Hh.
  apply rstrip_fixed, Ht.
Qed.

Lemma strip_length_le (s : string) : String.length (strip s) <= String.length s.
Proof.
  destruct (strip_spec s) as (l & r & Hs & _).
  rewrite Hs at 2. rewrite !string_length_app. lia.
Qed.

Lemma space_not_alpha (c : ascii) : is_space c = true -> is_alpha c = false.
Proof.
  destruct c as [[] [] [] [] [] [] [] []]; vm_compute; intros H;
    first [reflexivity | discriminate H].
Qed.

Lemma existsb_app (p : ascii -> bool) (a b : string) :
  PyStr.existsb p (a ++ b) = PyStr.existsb p a || PyStr.existsb p b.
Proof. induction a as [|c a IH]; cbn; [reflexivity|]. now rewrite IH, orb_assoc. Qed.

Lemma spaces_no_alpha (s : string) :
  all_in is_space s -> PyStr.existsb is_alpha s = false.
Proof.
  unfold all_in. induction s as [|c s IH]; cbn; [reflexivity|].
  intros H. inversion H; subst. rewrite space_not_alpha by assumption. auto.
Qed.

Lemma re_search_alpha_strip (s : string) :
  re_search_alpha (strip s) = re_search_alpha s.
Proof.
  destruct (strip_spec s) as (l & r & Hs & Hl & Hr & _).
  unfold re_search_alpha. rewrite Hs at 2.
  rewrite !existsb_app, (spaces_no_alpha _ Hl), (spaces_no_alpha _ Hr).
  now rewrite orb_false_r.
Qed.

(** White space around a name does not matter to its validation, and a
    valid name has at least two characters. *)
Theorem validate_name_ignores_margins :
  forall s : string,
    validate_name (strip s) = validate_name s /\
    (validate_name s = true -> 2 <= String.length s).
Proof.
  intros s. split.
  - unfold validate_name. rewrite strip_idem, re_search_alpha_strip.
    destruct (truthy s) eqn:Ts, (truthy (strip s)) eqn:Tt; cbn; try reflexivity.
    + apply negb_false_iff, String.eqb_eq in Tt. now rewrite Tt.
    + apply negb_false_iff, String.eqb_eq in Ts. subst s. discriminate.
  - unfold validate_name.
    destruct (Nat.ltb_spec (String.length (strip s)) 2) as [Hlt|Hge].
    + rewrite orb_true_r. discriminate.
    + intros _. pose proof (strip_length_le s). lia.
Qed.

(** *** Phone numbers *)

Lemma extract_phone_fixed (s : string) :
  PyStr.forallb is_digit s = true -> String.length s <= 10 ->
  extract_phone s = s.
Proof.
  intros Hd Hl. unfold extract_phone, re_sub_non_digits.
  rewrite filter_fixed by exact Hd.
  destruct (Nat.leb_spec 10 (String.length s)); [|reflexivity].
  rewrite slice_to_firstn, firstn_all2 by (rewrite <- length_chars; lia).
  apply string_of_list_ascii_of_string.
Qed.

(** Extracting a phone number twice changes nothing more; validation looks
    at the digits only; and a text that validates as it is extracts to
    its digits and still validates. *)
Theorem phone_normal_form :
  forall s : string,
    extract_phone (extract_phone s) = extract_phone s /\
    validate_phone (re_sub_non_digits s) = validate_phone s /\
    (validate_phone s = true ->
       extract_phone s = re_sub_non_digits s /\
       validate_phone (extract_phone s) = true).
Proof.
  intros s. split; [|split].
  - apply extract_phone_fixed; [apply extract_phone_all_digits|].
    rewrite extract_phone_length. lia.
  - unfold validate_phone, re_sub_non_digits. now rewrite filter_filter.
  - intros H. pose proof H as H10. apply validate_phone_iff in H10.
    assert (E : extract_phone s = re_sub_non_digits s).
    { unfold extract_phone.
      destruct (Nat.leb_spec 10 (String.length (re_sub_non_digits s))); [|reflexivity].
      rewrite slice_to_firstn, firstn_all2.
      - apply string_of_list_ascii_of_string.
      - unfold re_sub_non_digits. rewrite chars_filter. fold (digits_of s). lia. }
    split; [exact E|].
    rewrite E. unfold validate_phone, re_sub_non_digits in *.
    now rewrite filter_filter.
Qed.

(** *** Identifiers *)

Lemma to_upper_not_lower (c : ascii) : is_lower (to_upper c) = false.
Proof. destruct c as [[] [] [] [] [] [] [] []]; reflexivity. Qed.

Lemma to_upper_lower (c : ascii) : to_upper (to_lower c) = to_upper c.
Proof. destruct c as [[] [] [] [] [] [] [] []]; reflexivity. Qed.

Lemma to_lower_upper (c : ascii) : to_lower (to_upper c) = to_lower c.
Proof. destruct c as [[] [] [] [] [] [] [] []]; reflexivity. Qed.

Lemma to_lower_idem (c : ascii) : to_lower (to_lower c) = to_lower c.
Proof. destruct c as [[] [] [] [] [] [] [] []]; reflexivity. Qed.

Lemma to_lower_space (c : ascii) :
  Ascii.eqb (to_lower c) " " = Ascii.eqb c " ".
Proof. destruct c as [[] [] [] [] [] [] [] []]; reflexivity. Qed.

Lemma map_map (f g : ascii -> ascii) (s : string) :
  PyStr.map f (PyStr.map g s) = PyStr.map (fun c => f (g c)) s.
Proof. induction s as [|c s IH]; cbn; [reflexivity|]. now rewrite IH. Qed.

Lemma map_ext (f g : ascii -> ascii) (s : string) :
  (forall c, f c = g c) -> PyStr.map f s = PyStr.map g s.
Proof. intros H. induction s as [|c s IH]; cbn; [reflexivity|]. now rewrite H, IH. Qed.

Lemma upper_lower (s : string) : upper (lower s) = upper s.
Proof. unfold upper, lower. rewrite map_map. apply map_ext, to_upper_lower. Qed.

Lemma lower_upper (s : string) : lower (upper s) = lower s.
Proof. unfold upper, lower. rewrite map_map. apply map_ext, to_lower_upper. Qed.

Lemma lower_idem (s : string) : lower (lower s) = lower s.
Proof. unfold lower. rewrite map_map. apply map_ext, to_lower_idem. Qed.

Lemma remove_spaces_lower (s : string) :
  remove_spaces (lower s) = lower (remove_spaces s).
Proof.
  unfold remove_spaces, lower. induction s as [|c s IH]; cbn; [reflexivity|].
  rewrite to_lower_space. destruct (Ascii.eqb c " "); cbn; now rewrite IH.
Qed.

Lemma length_map (f : ascii -> ascii) (s : string) :
  String.length (PyStr.map f s) = String.length s.
Proof. induction s; cbn; congruence. Qed.

Lemma length_filter_le (p : ascii -> bool) (s : string) :
  String.length (PyStr.filter p s) <= String.length s.
Proof. induction s as [|c s IH]; cbn; [lia|]. destruct (p c); cbn; lia. Qed.

(** An extracted identifier is in normal form: extracting again changes
    nothing, and it holds no space and no lower-case letter. For ASCII
    text it is no longer than the text it came from. *)
Theorem pan_normal_form :
  forall s : string,
    extract_pan (extract_pan s) = extract_pan s /\
    PyStr.forallb (fun c => negb (Ascii.eqb c " ") && negb (is_lower c))
      (extract_pan s) = true /\
    (isascii s = true -> String.length (extract_pan s) <= String.length s).
Proof.
  intros s. split; [apply extract_pan_idem|]. split.
  - unfold extract_pan, upper, remove_spaces.
    induction s as [|c s IH]; cbn; [reflexivity|].
    destruct (Ascii.eqb c " ") eqn:E; cbn; [exact IH|].
    now rewrite to_upper_space, E, to_upper_not_lower, IH.
  - intros _. unfold extract_pan, upper, remove_spaces. rewrite length_map.
    apply length_filter_le.
Qed.

Lemma pan_normal_form_witness :
  isascii "abcde 1234 f" = true /\
  String.length (extract_pan "abcde 1234 f") <= String.length "abcde 1234 f".
Proof.
  split; [reflexivity|].
  exact (proj2 (proj2 (pan_normal_form "abcde 1234 f")) eq_refl).
Defined.

(** Identifier validation does not depend on whether the text was
    extracted first, on upper-casing it, or on its spaces; for ASCII text
    it does not depend on lower-casing it either. *)
Theorem validate_pan_ignores_case_and_spaces :
  forall s : string,
    validate_pan (extract_pan s) = validate_pan s /\
    validate_pan (upper s) = validate_pan s /\
    validate_pan (remove_spaces s) = validate_pan s /\
    (isascii s = true -> validate_pan (lower s) = validate_pan s).
Proof.
  intros s. unfold validate_pan. repeat split.
  - fold (extract_pan (extract_pan s)). fold (extract_pan s).
    now rewrite extract_pan_idem.
  - now rewrite remove_spaces_upper, upper_idem.
  - unfold remove_spaces. now rewrite filter_filter.
  - intros _. now rewrite remove_spaces_lower, upper_lower.
Qed.

Lemma validate_pan_ignores_case_and_spaces_witness :
  isascii "AbCdE 1234 f" = true /\
  validate_pan (lower "AbCdE 1234 f") = validate_pan "AbCdE 1234 f".
Proof.
  split; [reflexivity|].
  exact (proj2 (proj2 (proj2
           (validate_pan_ignores_case_and_spaces "AbCdE 1234 f"))) eq_refl).
Defined.

(** *** Consent keywords *)

Lemma nope_has_no (x : string) : Substring "nope" x -> Substring "no" x.
Proof.
  intros (a & b & ->). exists a, ("pe" ++ b)%string. reflexivity.
Qed.

(** The test for "nope" never decides anything: a text with "nope" in it
    has "no" in it. *)
Theorem nope_test_is_redundant :
  (forall x : string, contains "no" x || contains "nope" x = contains "no" x) /\
  (forall r : string, negative r <-> Substring "no" (lower r)).
Proof.
  split.
  - intros x. destruct (contains "no" x) eqn:E; [reflexivity|]. cbn.
    destruct (contains "nope" x) eqn:E'; [|reflexivity].
    apply contains_Substring, nope_has_no, contains_Substring in E'. congruence.
  - intros r. unfold negative. split; [|tauto].
    intros [H|H]; [exact H | now apply nope_has_no].
Qed.

(** For an ASCII response the consent check does not depend on the case
    of the letters. *)
Theorem consent_check_ignores_case :
  forall (text : string) (w : World),
    isascii text = true ->
    get_consent_check (upper text) w = get_consent_check text w /\
    get_consent_check (lower text) w = get_consent_check text w /\
    (affirmative (upper text) <-> affirmative text) /\
    (negative (upper text) <-> negative text).
Proof.
  intros text w _. unfold get_consent_check, affirmative, negative.
  rewrite lower_upper, lower_idem. repeat split; auto.
Qed.

Lemma consent_check_ignores_case_witness :
  let w := init [] sample_now true [] in
  isascii "Yes please" = true /\
  get_consent_check "YES PLEASE" w = get_consent_check "Yes please" w /\
  fst (get_consent_check "YES PLEASE" w) = true.
Proof.
  cbv zeta. split; [reflexivity|]. split; [|reflexivity].
  exact (proj1 (consent_check_ignores_case "Yes please"
                  (init [] sample_now true []) eq_refl)).
Defined.

End NormalForms.

(* ================================================================= *)
(** ** How the collectors end *)

Module DialogueEnds.

Import PyStr KYCVoiceBot Spec PyStrFacts CollectorProps ConsentProps NormalForms.

Lemma listen_effect (w w' : World) (r : option string) :
  listen w = (r, w') ->
  trace w' = Listened r :: trace w /\
  pending w' = tl (pending w) /\
  kyc_data w' = kyc_data w /\ fs w' = fs w /\
  (forall t, r = Some t -> strip t = t).
Proof.
  unfold listen.
  destruct (pending w) as [|[x|] rest] eqn:E; intros [= <- <-]; cbn;
    (split; [reflexivity|]); (split; [now rewrite ?E|]);
    (split; [reflexivity|]); (split; [reflexivity|]);
    intros t [= <-].
  apply strip_idem.
Qed.

Lemma listen_some (w w' : World) (t : string) :
  listen w = (Some t, w') ->
  trace w' = Listened (Some t) :: trace w /\ strip t = t.
Proof.
  intros H. apply listen_effect in H as (Ht & _ & _ & _ & Hs).
  split; [exact Ht | now apply Hs].
Qed.

(** [listen] logs one event, takes at most one pending result, and a text
    it returns has no white space at either end. *)
Theorem listen_returns_stripped :
  forall (w w' : World) (r : option string),
    listen w = (r, w') ->
    trace w' = Listened r :: trace w /\
    pending w' = tl (pending w) /\
    kyc_data w' = kyc_data w /\ fs w' = fs w /\
    (forall t, r = Some t -> strip t = t).
Proof. exact listen_effect. Qed.

Lemma listen_returns_stripped_witness :
  let w := init [Some "  John Smith "] sample_now true [] in
  trace (snd (listen w)) = [Listened (Some "John Smith")] /\
  pending (snd (listen w)) = [].
Proof.
  cbv zeta.
  set (w := init [Some "  John Smith "] sample_now true []).
  destruct (listen_returns_stripped w (snd (listen w)) (fst (listen w)) eq_refl)
    as (Ht & Hp & _).
  split; [exact Ht | exact Hp].
Defined.

Section Collector.

Variables (prompt : string) (validation_func : string -> bool)
          (extract_func : option (string -> string)) (field_name : string).

Let ends := collector_end validation_func extract_func field_name.

Lemma loop_end (attempts : list nat) :
  forall w r w',
    get_input_with_retry_loop validation_func extract_func field_name attempts w
      = (r, w') ->
    ends r (trace w').
Proof.
  unfold ends.
  induction attempts as [|attempt rest IH]; intros w r w'; simpl.
  - unfold bind, speak, ret. intros [= <- <-].
    cbn. eexists _, _. split; [reflexivity|]. cbn. tauto.
  - unfold bind at 1 2. cbn [speak].
    destruct (listen _) as [[text|] w1] eqn:L.
    + apply listen_some in L as [Lt Ls].
      destruct (validation_func (apply_extract extract_func text)) eqn:V.
      * unfold ret. intros [= <- <-]. cbn. eauto 8.
      * apply IH.
    + clear L. unfold bind, get_max_retries.
      destruct (attempt <? max_retries w1 - 1)%nat.
      * cbn [speak]. apply IH.
      * cbn [speak ret]. intros [= <- <-].
        cbn. eexists _, _. split; [reflexivity|]. cbn. tauto.
Qed.

Lemma validate_end (text : string) :
  forall w r w',
    (exists old, trace w = Listened (Some text) :: old) -> strip text = text ->
    get_input_with_retry_validate validation_func extract_func field_name text w
      = (r, w') ->
    ends r (trace w').
Proof.
  intros w r w' [old Ht] Hs. unfold get_input_with_retry_validate.
  destruct (validation_func (apply_extract extract_func text)) eqn:V.
  - unfold ret. intros [= <- <-]. unfold ends. cbn. eauto 8.
  - unfold bind, get_max_retries. apply loop_end.
Qed.

Lemma get_input_with_retry_end :
  forall w r w',
    get_input_with_retry prompt validation_func extract_func field_name w
      = (r, w') ->
    ends r (trace w').
Proof.
  intros w r w'. unfold get_input_with_retry.
  unfold bind at 1 2. cbn [speak].
  destruct (listen _) as [[t1|] w1] eqn:L1;
    [apply listen_some in L1 as [Lt Ls]; apply validate_end; eauto | clear L1].
  unfold bind at 1 2. cbn [speak].
  destruct (listen _) as [[t2|] w2] eqn:L2;
    [apply listen_some in L2 as [Lt Ls]; apply validate_end; eauto | clear L2].
  unfold bind at 1 2. cbn [speak].
  destruct (listen _) as [[t3|] w3] eqn:L3;
    [apply listen_some in L3 as [Lt Ls]; apply validate_end; eauto | clear L3].
  unfold bind, ret. cbn [speak]. intros [= <- <-].
  unfold ends. cbn. eexists _, _. split; [reflexivity|]. cbn. tauto.
Qed.

End Collector.

Lemma heard_nonempty (m : nat) (P : Prop) (evs : list Event) :
  listen_pattern m P (heard evs) -> evs <> [].
Proof.
  intros [[_ H] | (k & t & later & _ & H & _)] ->; cbn in H.
  - discriminate.
  - destruct k; discriminate.
Qed.

(** The events of a collector start where its final trace starts. *)
Lemma newest_event (w w' : World) (evs : list Event) (e : Event) (old : list Event) :
  trace w' = evs ++ trace w -> evs <> [] -> trace w' = e :: old ->
  exists old', evs = e :: old'.
Proof.
  intros H Hne He. destruct evs as [|e' evs]; [contradiction|].
  rewrite He in H. injection H as -> _. eauto.
Qed.

(** A value returned by the field collector was validated, is the
    extraction of the text captured by the most recent listen, and nothing
    is said after that listen. *)
Theorem collector_returns_last_capture :
  forall (prompt : string) (validation_func : string -> bool)
         (extract_func : option (string -> string)) (field_name : string)
         (w w' : World) (p : string) (evs : list Event),
    get_input_with_retry prompt validation_func extract_func field_name w
      = (Some p, w') ->
    trace w' = evs ++ trace w ->
    validation_func p = true /\
    exists t old,
      evs = Listened (Some t) :: old /\ strip t = t /\
      p = apply_extract extract_func t.
Proof.
  intros prompt v e f w w' p evs Hrun Htr.
  pose proof (get_input_with_retry_end prompt v e f _ _ _ Hrun)
    as (t & old & Ht & Hs & Hp & Hv).
  apply get_input_with_retry_spec in Hrun as (evs0 & (T & _) & _ & _ & P).
  rewrite <- (events_unique _ _ _ _ Htr T) in P.
  destruct (newest_event _ _ _ _ _ Htr (heard_nonempty _ _ _ P) Ht) as [old' ->].
  split; [exact Hv|]. eauto.
Qed.

Lemma collector_returns_last_capture_witness :
  let w := init [None; Some "12345"; Some " 98765 43210 "] sample_now true [] in
  let res := get_input_with_retry phone_prompt validate_phone
               (Some extract_phone) "phone number" w in
  fst res = Some "9876543210" /\
  validate_phone "9876543210" = true /\
  exists t old,
    trace (snd res) = Listened (Some t) :: old /\ strip t = t /\
    "9876543210" = apply_extract (Some extract_phone) t.
Proof.
  cbv zeta. split; [reflexivity|].
  set (w := init [None; Some "12345"; Some " 98765 43210 "] sample_now true []).
  set (res := get_input_with_retry phone_prompt validate_phone
                (Some extract_phone) "phone number" w).
  refine (collector_returns_last_capture phone_prompt validate_phone
            (Some extract_phone) "phone number" w (snd res) "9876543210"
            (trace (snd res)) _ _); reflexivity.
Defined.

(** When the field collector returns absent, the last thing it did was to
    say that it gives up. *)
Theorem collector_failure_is_announced :
  forall (prompt : string) (validation_func : string -> bool)
         (extract_func : option (string -> string)) (field_name : string)
         (w w' : World) (evs : list Event),
    get_input_with_retry prompt validation_func extract_func field_name w
      = (None, w') ->
    trace w' = evs ++ trace w ->
    exists m old, evs = Spoke m :: old /\ In m (final_msgs field_name).
Proof.
  intros prompt v e f w w' evs Hrun Htr.
  pose proof (get_input_with_retry_end prompt v e f _ _ _ Hrun)
    as (m & old & Ht & Hm).
  apply get_input_with_retry_spec in Hrun as (evs0 & (T & _) & _ & _ & P).
  rewrite <- (events_unique _ _ _ _ Htr T) in P.
  destruct (newest_event _ _ _ _ _ Htr (heard_nonempty _ _ _ P) Ht) as [old' ->].
  eauto.
Qed.

Lemma collector_failure_is_announced_witness :
  let w := init [Some "7"; Some "8"; Some "9"] sample_now true [] in
  let res := get_input_with_retry name_prompt validate_name None "name" w in
  fst res = None /\
  exists m old,
    trace (snd res) = Spoke m :: old /\ In m (final_msgs "name").
Proof.
  cbv zeta. split; [reflexivity|].
  set (w := init [Some "7"; Some "8"; Some "9"] sample_now true []).
  set (res := get_input_with_retry name_prompt validate_name None "name" w).
  refine (collector_failure_is_announced name_prompt validate_name None "name"
            w (snd res) (trace (snd res)) _ _); reflexivity.
Defined.

(** The field collector only converses: it leaves the record, the files,
    the clock and the retry count as they were, assigns nothing, writes
    nothing, and says only its own messages. *)
Theorem collector_only_talks :
  forall (prompt : string) (validation_func : string -> bool)
         (extract_func : option (string -> string)) (field_name : string)
         (w w' : World) (r : option string) (evs : list Event),
    get_input_with_retry prompt validation_func extract_func field_name w
      = (r, w') ->
    trace w' = evs ++ trace w ->
    kyc_data w' = kyc_data w /\ fs w' = fs w /\
    max_retries w' = max_retries w /\ clock w' = clock w /\
    assignments evs = [] /\ dumps evs = [] /\
    (forall t, In t (spoken evs) -> In t (collector_msgs prompt field_name)).
Proof.
  intros prompt v e f w w' r evs Hrun Htr.
  apply get_input_with_retry_spec in Hrun
    as (evs0 & (T & K & M & C & D & F) & Ch & _ & _).
  rewrite (events_unique _ _ _ _ Htr T).
  destruct (SessionProps.chat_quiet _ _ Ch) as [Ha Hd].
  repeat split; auto.
  intros t Ht. apply In_spoken in Ht.
  exact (SessionProps.chat_utterance _ _ _ Ch Ht).
Qed.

Lemma collector_only_talks_witness :
  let w := init [Some "x"; None; Some "Asha Rao"] sample_now true [] in
  let res := get_input_with_retry name_prompt validate_name None "name" w in
  fst res = Some "Asha Rao" /\
  kyc_data (snd res) = empty_record /\ fs (snd res) = [].
Proof.
  cbv zeta. split; [reflexivity|].
  set (w := init [Some "x"; None; Some "Asha Rao"] sample_now true []).
  set (res := get_input_with_retry name_prompt validate_name None "name" w).
  destruct (collector_only_talks name_prompt validate_name None "name"
              w (snd res) (fst res) (trace (snd res)) eq_refl eq_refl)
    as (K & F & _).
  split; [exact K | exact F].
Defined.

(** *** The consent step *)

Lemma consent_loop_end (attempts : list nat) :
  forall w b w', get_consent_loop attempts w = (b, w') -> consent_end b (trace w').
Proof.
  induction attempts as [|attempt rest IH]; intros w b w'; simpl.
  - unfold bind, speak, ret. intros [= <- <-].
    cbn. eexists _, _. split; [reflexivity|]. cbn. tauto.
  - unfold bind at 1 2. cbn [speak].
    destruct (listen _) as [[text|] w1] eqn:L.
    + apply listen_some in L as [Lt Ls].
      destruct (contains "yes" (lower text) || contains "yeah" (lower text)
                || contains "sure" (lower text)) eqn:Y.
      * apply affirmative_iff in Y. unfold ret. intros [= <- <-]. cbn. eauto 8.
      * destruct (contains "no" (lower text) || contains "nope" (lower text)).
        -- unfold bind, ret. cbn [speak]. intros [= <- <-].
           cbn. eexists _, _. split; [reflexivity|]. cbn. tauto.
        -- apply IH.
    + clear L. unfold bind, get_max_retries.
      destruct (attempt <? max_retries w1 - 1)%nat.
      * cbn [speak]. apply IH.
      * cbn [speak ret]. intros [= <- <-].
        cbn. eexists _, _. split; [reflexivity|]. cbn. tauto.
Qed.

Lemma consent_check_end (text : string) :
  forall w b w',
    (exists old, trace w = Listened (Some text) :: old) -> strip text = text ->
    get_consent_check text w = (b, w') ->
    consent_end b (trace w').
Proof.
  intros w b w' [old Ht] Hs. unfold get_consent_check.
  destruct (contains "yes" (lower text) || contains "yeah" (lower text)
            || contains "sure" (lower text)) eqn:Y.
  - apply affirmative_iff in Y. unfold ret. intros [= <- <-]. cbn. eauto 8.
  - destruct (contains "no" (lower text) || contains "nope" (lower text)).
    + unfold bind, ret. cbn [speak]. intros [= <- <-].
      cbn. eexists _, _. split; [reflexivity|]. cbn. tauto.
    + unfold bind, get_max_retries. apply consent_loop_end.
Qed.

Lemma get_consent_end :
  forall w b w', get_consent w = (b, w') -> consent_end b (trace w').
Proof.
  intros w b w'. unfold get_consent.
  unfold bind at 1 2. cbn [speak].
  destruct (listen _) as [[t1|] w1] eqn:L1;
    [apply listen_some in L1 as [Lt Ls]; apply consent_check_end; eauto | clear L1].
  unfold bind at 1 2. cbn [speak].
  destruct (listen _) as [[t2|] w2] eqn:L2;
    [apply listen_some in L2 as [Lt Ls]; apply consent_check_end; eauto | clear L2].
  unfold bind at 1 2. cbn [speak].
  destruct (listen _) as [[t3|] w3] eqn:L3;
    [apply listen_some in L3 as [Lt Ls]; apply consent_check_end; eauto | clear L3].
  unfold bind, ret. cbn [speak]. intros [= <- <-].
  cbn. eexists _, _. split; [reflexivity|]. cbn. tauto.
Qed.

(** Consent is never reported without an affirmative response: when the
    consent step returns true, the last thing it did was to hear a
    response with "yes", "yeah" or "sure" in it, and it never spoke the
    decline acknowledgment. *)
Theorem consent_needs_affirmative :
  forall (w w' : World) (evs : list Event),
    get_consent w = (true, w') ->
    trace w' = evs ++ trace w ->
    (exists r old,
        evs = Listened (Some r) :: old /\ strip r = r /\ affirmative r) /\
    ~ In decline_msg (spoken evs).
Proof.
  intros w w' evs Hrun Htr.
  pose proof (get_consent_end _ _ _ Hrun) as (r & old & Ht & Hs & Ha).
  destruct (consent_events _ _ _ _ Hrun Htr) as [C P].
  destruct (newest_event _ _ _ _ _ Htr (heard_nonempty _ _ _ P) Ht) as [old' ->].
  split; [eauto|].
  destruct (consent_verdicts _ _ C) as (Vy & _ & _).
  intros Hd. apply In_spoken in Hd.
  now destruct (Vy r (or_introl eq_refl) Ha).
Qed.

Lemma consent_needs_affirmative_witness :
  let w := init [None; Some "hmm"; Some "Sure thing"] sample_now true [] in
  fst (get_consent w) = true /\
  exists r old,
    trace (snd (get_consent w)) = Listened (Some r) :: old /\
    strip r = r /\ affirmative r.
Proof.
  cbv zeta. split; [reflexivity|].
  set (w := init [None; Some "hmm"; Some "Sure thing"] sample_now true []).
  exact (proj1 (consent_needs_affirmative w (snd (get_consent w))
                  (trace (snd (get_consent w))) eq_refl eq_refl)).
Defined.

(** When the consent step returns false, the last thing it did was to say
    why: the decline acknowledgment, or that it could not get or could not
    understand the answer. *)
Theorem consent_refusal_is_announced :
  forall (w w' : World) (evs : list Event),
    get_consent w = (false, w') ->
    trace w' = evs ++ trace w ->
    exists m old, evs = Spoke m :: old /\ In m consent_final_msgs.
Proof.
  intros w w' evs Hrun Htr.
  pose proof (get_consent_end _ _ _ Hrun) as (m & old & Ht & Hm).
  destruct (consent_events _ _ _ _ Hrun Htr) as [_ P].
  destruct (newest_event _ _ _ _ _ Htr (heard_nonempty _ _ _ P) Ht) as [old' ->].
  eauto.
Qed.

Lemma consent_refusal_is_announced_witness :
  let w := init [Some "maybe"; None; Some "perhaps"] sample_now true [] in
  fst (get_consent w) = false /\
  exists m old,
    trace (snd (get_consent w)) = Spoke m :: old /\ In m consent_final_msgs.
Proof.
  cbv zeta. split; [reflexivity|].
  set (w := init [Some "maybe"; None; Some "perhaps"] sample_now true []).
  exact (consent_refusal_is_announced w (snd (get_consent w))
           (trace (snd (get_consent w))) eq_refl eq_refl).
Defined.

(** The consent step only converses, with at most three listens up to its
    first capture and at most [max_retries] after it; in particular it
    does not record the consent itself. *)
Theorem consent_only_talks :
  forall (w w' : World) (b : bool) (evs : list Event),
    get_consent w = (b, w') ->
    trace w' = evs ++ trace w ->
    kyc_data w' = kyc_data w /\ fs w' = fs w /\
    max_retries w' = max_retries w /\ clock w' = clock w /\
    assignments evs = [] /\ dumps evs = [] /\
    1 <= listens evs <= 3 + max_retries w.
Proof.
  intros w w' b evs Hrun Htr.
  apply get_consent_spec in Hrun as (evs0 & (T & K & M & C & D & F) & R & P).
  rewrite (events_unique _ _ _ _ Htr T).
  destruct (SessionProps.consent_quiet _ _ R) as [Ha Hd].
  repeat split; auto.
  - rewrite <- heard_length.
    destruct P as [[_ ->] | (k & t & later & _ & -> & _)]; cbn; [lia|].
    rewrite length_app. cbn. lia.
  - apply listen_pattern_length in P. now rewrite heard_length in P.
Qed.

Lemma consent_only_talks_witness :
  let w := init [Some "ok then"; None; Some "no"] sample_now true [] in
  kyc_data (snd (get_consent w)) = empty_record /\
  listens (trace (snd (get_consent w))) <= 5.
Proof.
  cbv zeta.
  set (w := init [Some "ok then"; None; Some "no"] sample_now true []).
  destruct (consent_only_talks w (snd (get_consent w)) (fst (get_consent w))
              (trace (snd (get_consent w))) eq_refl eq_refl)
    as (K & _ & _ & _ & _ & _ & _ & L).
  split; [exact K | exact L].
Defined.

End DialogueEnds.

(* ================================================================= *)
(** ** Further properties of whole sessions *)

Module SessionExtras.

Import PyStr KYCVoiceBot Spec PyStrFacts ValidationProps PanProps.
Import CollectorProps ConsentProps SessionProps.

Lemma ten_digits_nonempty (p : string) : ten_digits p -> p <> EmptyString.
Proof. intros [H _] ->. discriminate. Qed.

Lemma pan_pattern_nonempty (i : string) : pan_pattern i -> i <> EmptyString.
Proof.
  intros (l & d & c & -> & Hl & _) H.
  destruct l; [discriminate Hl | discriminate H].
Qed.

Lemma validate_name_nonempty (n : string) :
  validate_name n = true -> n <> EmptyString.
Proof. intros H ->. discriminate. Qed.

(** The result of a session is the consent field of the record it leaves;
    a session that completes leaves a record whose name, phone and
    identifier all pass their rules and whose timestamp is the clock
    reading; and in any record a later field is filled only if the earlier
    ones are. *)
Theorem completed_record_is_valid :
  forall (inputs : list (option string)) (now : DateTime.t) (ok : bool)
         (files : list (string * KycData)),
    let res := run_kyc_session (init inputs now ok files) in
    let d := kyc_data (snd res) in
    fst res = consent d /\
    (fst res = true ->
       validate_name (name d) = true /\ ten_digits (phone d) /\
       pan_pattern (pan d) /\ timestamp d = DateTime.isoformat now) /\
    (phone d <> EmptyString -> name d <> EmptyString) /\
    (pan d <> EmptyString -> phone d <> EmptyString) /\
    (consent d = true -> pan d <> EmptyString).
Proof.
  intros inputs now ok files. cbv zeta.
  destruct (run_kyc_session (init inputs now ok files)) as [success w'] eqn:E.
  apply run_kyc_session_spec in E as (evs & _ & R).
  cbn [fst snd kyc_data clock init] in *.
  destruct R; subst; cbn;
    repeat match goal with
           | H : validate_name _ = true |- _ =>
               pose proof (validate_name_nonempty _ H); revert H
           | H : ten_digits _ |- _ =>
               pose proof (ten_digits_nonempty _ H); revert H
           | H : pan_pattern _ |- _ =>
               pose proof (pan_pattern_nonempty _ H); revert H
           end; intros;
    repeat split; auto; try discriminate; try congruence;
    match goal with H : ten_digits _ |- _ => apply H end.
Qed.

Lemma run_kyc_session_frame (w w' : World) (success : bool) :
  run_kyc_session w = (success, w') ->
  fs w' = fs w /\ disk w' = disk w /\
  exists evs, trace w' = evs ++ trace w /\ dumps evs = [].
Proof.
  intros E. apply run_kyc_session_spec in E as (evs & (T & _ & _ & D & F) & R).
  destruct (session_timestamp_writes _ _ _ _ _ R) as [_ Hd]. eauto.
Qed.

Lemma read_file_truncate_same (f : string) (files : list (string * KycData)) :
  read_file f (truncate f files) = None.
Proof.
  induction files as [|[g d] rest IH]; cbn; [reflexivity|].
  destruct (String.eqb_spec g f) as [->|Hne]; [exact IH|].
  cbn. destruct (String.eqb_spec g f); [contradiction | exact IH].
Qed.

Lemma read_file_truncate_other (f g : string) (files : list (string * KycData)) :
  f <> g -> read_file f (truncate g files) = read_file f files.
Proof.
  intros Hne. induction files as [|[h d] rest IH]; cbn; [reflexivity|].
  destruct (String.eqb_spec h g) as [->|Hg].
  - destruct (String.eqb_spec g f); [congruence | exact IH].
  - cbn. now rewrite IH.
Qed.

(** [main] calls [save_to_json] exactly when the session succeeds, once,
    with the record the session left, which stays in memory whatever the
    disk does. After a success the file holds that record when the write
    goes through, what it held before when it cannot be opened, and no
    record when it was opened and the write then failed. After a failure
    it holds what it held before. No other file is touched. *)
Theorem main_writes_iff_success :
  forall (inputs : list (option string)) (now : DateTime.t) (d : Disk)
         (files : list (string * KycData)),
    let res := run_kyc_session (fresh inputs now d files) in
    let final := main_with inputs now d files in
    let record := kyc_data (snd res) in
    kyc_data final = record /\
    dumps (trace final) =
      (if fst res
       then [(session_file, record,
              match d with Writable => true | _ => false end)]
       else []) /\
    read_file session_file (fs final) =
      (if fst res then
         match d with
         | Writable => Some record
         | Unopenable => read_file session_file files
         | Unwritable => None
         end
       else read_file session_file files) /\
    (forall f, f <> session_file -> read_file f (fs final) = read_file f files) /\
    main inputs now true files = main_with inputs now Writable files /\
    main inputs now false files = main_with inputs now Unopenable files.
Proof.
  intros inputs now d files. cbv zeta. unfold main_with, bind.
  destruct (run_kyc_session (fresh inputs now d files)) as [success w'] eqn:E.
  apply run_kyc_session_frame in E as (F & D & evs & T & Hd).
  cbn [fs disk trace fresh] in F, D, T. rewrite app_nil_r in T.
  cbn [fst snd].
  split; [|split; [|split; [|split; [|split; reflexivity]]]].
  - destruct success; [|reflexivity].
    unfold save_to_json, ret. rewrite D. now destruct d.
  - destruct success.
    + unfold save_to_json, ret. rewrite D.
      destruct d; cbn [fst snd trace log with_fs];
        now rewrite dumps_cons, T, Hd.
    + unfold ret. cbn [snd]. now rewrite T.
  - destruct success.
    + unfold save_to_json, ret. rewrite D.
      destruct d; cbn [fst snd fs log with_fs]; rewrite F.
      * unfold session_file. cbn [read_file]. now rewrite String.eqb_refl.
      * reflexivity.
      * apply read_file_truncate_same.
    + unfold ret. cbn [snd]. now rewrite F.
  - intros f Hf. destruct success.
    + unfold save_to_json, ret. rewrite D.
      destruct d; cbn [fst snd fs log with_fs]; rewrite F.
      * cbn [read_file].
        destruct (String.eqb_spec "kyc_session.json" f) as [<-|_];
          [now elim Hf | reflexivity].
      * reflexivity.
      * now apply read_file_truncate_other.
    + unfold ret. cbn [snd]. now rewrite F.
Qed.

(** *** How long a session can be *)

Lemma collector_cost prompt v e f (w w' : World) (r : option string) :
  get_input_with_retry prompt v e f w = (r, w') ->
  listens (trace w') <= listens (trace w) + (3 + max_retries w) /\
  max_retries w' = max_retries w.
Proof.
  intros H. apply get_input_with_retry_spec in H
    as (evs & (T & _ & M & _) & _ & _ & P).
  apply listen_pattern_length in P. rewrite heard_length in P.
  rewrite T, listens_app. split; [lia | exact M].
Qed.

Lemma consent_cost (w w' : World) (b : bool) :
  get_consent w = (b, w') ->
  listens (trace w') <= listens (trace w) + (3 + max_retries w) /\
  max_retries w' = max_retries w.
Proof.
  intros H. apply get_consent_spec in H as (evs & (T & _ & M & _) & _ & P).
  apply listen_pattern_length in P. rewrite heard_length in P.
  rewrite T, listens_app. split; [lia | exact M].
Qed.

Ltac tally :=
  cbn [trace max_retries log with_kyc_data] in *;
  rewrite ?listens_cons in *; cbn [Nat.add] in *.

Lemma run_kyc_session_cost (w w' : World) (success : bool) :
  run_kyc_session w = (success, w') ->
  listens (trace w') <= listens (trace w) + 4 * (3 + max_retries w).
Proof.
  unfold run_kyc_session.
  unfold bind at 1 2. cbn [speak].
  destruct (get_input_with_retry _ _ _ _ _) as [r1 w1] eqn:E1.
  apply collector_cost in E1 as [L1 M1]. tally.
  destruct (if_truthy r1) as [n|].
  2:{ unfold bind, ret. cbn [speak]. intros [= <- <-]. tally. lia. }
  unfold bind at 1 2 3. cbn [assign].
  destruct (get_input_with_retry _ _ _ _ _) as [r2 w2] eqn:E2.
  apply collector_cost in E2 as [L2 M2]. tally.
  destruct (if_truthy r2) as [p|].
  2:{ unfold bind, ret. cbn [speak]. intros [= <- <-]. tally. lia. }
  unfold bind at 1 2 3. cbn [assign].
  destruct (get_input_with_retry _ _ _ _ _) as [r3 w3] eqn:E3.
  apply collector_cost in E3 as [L3 M3]. tally.
  destruct (if_truthy r3) as [i|].
  2:{ unfold bind, ret. cbn [speak]. intros [= <- <-]. tally. lia. }
  unfold bind at 1 2 3. cbn [assign].
  destruct (get_consent _) as [b w4] eqn:E4.
  apply consent_cost in E4 as [L4 M4]. tally.
  unfold bind at 1. cbn [assign].
  destruct b; cbn [negb].
  2:{ unfold ret. intros [= <- <-]. tally. lia. }
  unfold bind, ret, get_kyc_data, datetime_now. cbn [speak assign].
  intros [= <- <-]. tally. lia.
Qed.

(** A session listens at least once and at most twenty times, whatever
    the user says or does not say. *)
Theorem session_listen_bound :
  forall (inputs : list (option string)) (now : DateTime.t) (ok : bool)
         (files : list (string * KycData)),
    let res := run_kyc_session (init inputs now ok files) in
    1 <= listens (trace (snd res)) <= 20.
Proof.
  intros inputs now ok files. cbv zeta.
  destruct (run_kyc_session (init inputs now ok files)) as [success w'] eqn:E.
  cbn [snd]. split.
  - unfold run_kyc_session in E. unfold bind at 1 2 in E. cbn [speak] in E.
    destruct (get_input_with_retry _ _ _ _ _) as [r1 w1] eqn:E1.
    apply get_input_with_retry_spec in E1 as (e1 & (T1 & _) & _ & _ & P1).
    assert (H1 : 1 <= listens (trace w1)).
    { rewrite T1, listens_app, <- heard_length.
      destruct P1 as [[_ ->] | (k & t & later & _ & -> & _)]; cbn; [lia|].
      rewrite length_app. cbn. lia. }
    clear T1 P1.
    destruct (if_truthy r1) as [n|].
    2:{ unfold bind, ret in E. cbn [speak] in E. injection E as <- <-.
        cbn [trace log]. rewrite listens_cons. lia. }
    apply (f_equal snd) in E. cbn [snd] in E.
    revert E. unfold bind at 1 2 3. cbn [assign].
    set (s1 := log _ _).
    assert (Hs1 : 1 <= listens (trace s1))
      by (unfold s1; cbn [trace log with_kyc_data]; rewrite listens_cons; lia).
    clearbody s1.
    destruct (get_input_with_retry _ _ _ _ s1) as [r2 w2] eqn:E2.
    apply get_input_with_retry_spec in E2 as (e2 & (T2 & _) & _).
    assert (H2 : 1 <= listens (trace w2)) by (rewrite T2, listens_app; lia).
    clear T2.
    destruct (if_truthy r2) as [p|].
    2:{ unfold bind, ret. cbn [speak snd]. intros <-.
        cbn [trace log]. rewrite listens_cons. lia. }
    unfold bind at 1 2 3. cbn [assign].
    set (s2 := log _ _).
    assert (Hs2 : 1 <= listens (trace s2))
      by (unfold s2; cbn [trace log with_kyc_data]; rewrite listens_cons; lia).
    clearbody s2.
    destruct (get_input_with_retry _ _ _ _ s2) as [r3 w3] eqn:E3.
    apply get_input_with_retry_spec in E3 as (e3 & (T3 & _) & _).
    assert (H3 : 1 <= listens (trace w3)) by (rewrite T3, listens_app; lia).
    clear T3.
    destruct (if_truthy r3) as [i|].
    2:{ unfold bind, ret. cbn [speak snd]. intros <-.
        cbn [trace log]. rewrite listens_cons. lia. }
    unfold bind at 1 2 3. cbn [assign].
    set (s3 := log _ _).
    assert (Hs3 : 1 <= listens (trace s3))
      by (unfold s3; cbn [trace log with_kyc_data]; rewrite listens_cons; lia).
    clearbody s3.
    destruct (get_consent s3) as [b w4] eqn:E4.
    apply get_consent_spec in E4 as (e4 & (T4 & _) & _).
    assert (H4 : 1 <= listens (trace w4)) by (rewrite T4, listens_app; lia).
    clear T4.
    unfold bind at 1. cbn [assign].
    destruct b; cbn [negb].
    2:{ unfold ret. cbn [snd]. intros <-.
        cbn [trace log with_kyc_data]. rewrite listens_cons. lia. }
    unfold bind, ret, get_kyc_data, datetime_now. cbn [speak assign snd].
    intros <-. cbn [trace log with_kyc_data].
    rewrite !listens_cons. lia.
  - apply run_kyc_session_cost in E.
    cbn [trace max_retries init] in E. change (listens []) with 0 in E. lia.
Qed.

End SessionExtras.
